(** * Clipboard sync server: connection registry and fan-out broadcast

    A shallow embedding of [src/app.py]: the WebSocket endpoint
    [websocket_endpoint] (lines 35-124) and the clipboard poller [monitor]
    (lines 127-155), with the two globals [connected_clients] and
    [last_clipboard] they share, and [generate_pairing_code] (lines 179-180).

    Python objects are modelled by a store: a WebSocket is a handle (a
    [nat]) into [sockets], so that two connections opened under the same
    device identifier stay distinct objects.  The dictionary
    [connected_clients] is an insertion-ordered association list with unique
    keys, iterated the way CPython iterates a dict: every step of the
    iterator first compares the size of the dictionary with the size it had
    when the iteration started and raises [RuntimeError] when they differ.

    The text of a message is whatever JSON value the peer put there, so the
    values of Python that [json.loads] produces are modelled, with their
    truth value and their [==].

    Effects are threaded by a small monad: a computation takes the world,
    and gives back a result or a raised exception, the world as it left it
    (mutations done before an exception stay done) and the events it
    emitted, oldest first.

    What the environment decides is part of the world: whether the
    transport under a socket raises on a send or on a close, whether the
    clipboard backend raises, what the clipboard holds.  A step of the
    server (a connection being opened, one turn of a receive loop, one turn
    of the poller) runs to its end before the next one starts; the
    interleaving of tasks at an [await] inside a step is not modelled.  The
    updates of the GTK status label (lines 49-53 and 120-124) touch neither
    global and are left out. *)

From stdpp Require Import gmap strings list fin_maps pretty.

Open Scope string_scope.
Open Scope list_scope.

(** ** Data *)

(** [starlette.websockets.WebSocketState], the states a socket of this
    server goes through. *)
Inductive WebSocketState := CONNECTING | CONNECTED | DISCONNECTED.

#[global] Instance WebSocketState_eq_dec : EqDecision WebSocketState.
Proof. solve_decision. Defined.

(** What the handler can observe of a WebSocket object: its
    [application_state], and whether the transport under it raises
    [OSError] when it is handed a message to send ([send_raises]) or the
    close message ([close_raises]): the peer is gone. *)
Record WebSocket := mkWebSocket {
  application_state : WebSocketState;
  send_raises : bool;
  close_raises : bool
}.

(** A Python float: not a number, an infinity, or a finite float given by
    its value [m * 2 ^ e] together with the text [str] gives for it (the
    text is taken as the interpreter produces it, it is not computed
    here). *)
Inductive pyfloat :=
| FNan
| FInf (negative : bool)
| FFinite (m e : Z) (repr : string).

(** The values [pyperclip.copy] accepts: [str], [int], [bool], [float]. *)
Inductive scalar :=
| SStr (s : string)
| SInt (z : Z)
| SBool (b : bool)
| SFloat (f : pyfloat).

(** The values [json.loads] produces. *)
Inductive pyvalue :=
| Scalar (s : scalar)
| PNone
| PList (items : list pyvalue)
| PDict (items : list (string * pyvalue)).

Coercion SStr : string >-> scalar.
Coercion Scalar : scalar >-> pyvalue.

Abbreviation JString s := (Scalar (SStr s)).
Abbreviation JBool b := (Scalar (SBool b)).
Abbreviation PInt z := (Scalar (SInt z)).
Abbreviation PFloat f := (Scalar (SFloat f)).

(** [bool(v)] *)
Definition py_truthy (v : pyvalue) : bool :=
  match v with
  | Scalar (SStr s) => bool_decide (s ≠ "")
  | Scalar (SInt z) => bool_decide (z ≠ 0%Z)
  | Scalar (SBool b) => b
  | Scalar (SFloat FNan) => true
  | Scalar (SFloat (FInf _)) => true
  | Scalar (SFloat (FFinite m _ _)) => bool_decide (m ≠ 0%Z)
  | PNone => false
  | PList items => match items with [] => false | _ => true end
  | PDict items => match items with [] => false | _ => true end
  end.

(** [m1 * 2 ^ e1 == m2 * 2 ^ e2], exactly. *)
Definition dyadic_eq (m1 e1 m2 e2 : Z) : bool :=
  let e := Z.min e1 e2 in
  bool_decide (m1 * 2 ^ (e1 - e) = m2 * 2 ^ (e2 - e))%Z.

(** The numbers: a [bool] is the [int] 0 or 1; an [int] and a finite
    [float] are compared by their exact values; not-a-number equals
    nothing, itself included. *)
Definition num_eq (a b : scalar) : bool :=
  let as_dyadic (x : scalar) : option (option (Z * Z)) :=
    match x with
    | SInt z => Some (Some (z, 0%Z))
    | SBool b => Some (Some ((if b then 1 else 0)%Z, 0%Z))
    | SFloat (FFinite m e _) => Some (Some (m, e))
    | SFloat _ => Some None
    | SStr _ => None
    end in
  match as_dyadic a, as_dyadic b with
  | Some (Some (m1, e1)), Some (Some (m2, e2)) => dyadic_eq m1 e1 m2 e2
  | _, _ =>
      match a, b with
      | SFloat (FInf n1), SFloat (FInf n2) => bool_decide (n1 = n2)
      | _, _ => false
      end
  end.

(** [a == b] on the values [last_clipboard] can hold. *)
Definition scalar_eq (a b : scalar) : bool :=
  match a, b with
  | SStr s1, SStr s2 => bool_decide (s1 = s2)
  | SStr _, _ | _, SStr _ => false
  | _, _ => num_eq a b
  end.

(** [v != last]: [None], a list and a dict differ from every [str], [int],
    [bool] and [float]. *)
Definition py_ne (v : pyvalue) (last : scalar) : bool :=
  match v with
  | Scalar s => negb (scalar_eq s last)
  | _ => true
  end.

(** [str(s)], what [pyperclip.copy] puts on the clipboard for [s]. *)
Definition py_str (s : scalar) : string :=
  match s with
  | SStr s => s
  | SInt z => pretty z
  | SBool b => if b then "True" else "False"
  | SFloat FNan => "nan"
  | SFloat (FInf negative) => if negative then "-inf" else "inf"
  | SFloat (FFinite _ _ repr) => repr
  end.

(** The JSON objects the server sends: Python dicts with string keys. *)
Abbreviation json_object := (list (string * pyvalue)).

(** Lines 66-70. *)
Definition pairing_response : json_object :=
  [("type", JString "pairing_response");
   ("success", JBool true);
   ("message", JString "Pairing successful")].

(** Lines 85-89 and 140-144. *)
Definition clipboard_update (content : pyvalue) (source : string) : json_object :=
  [("type", JString "clipboard_update");
   ("text", content);
   ("source", JString source)].

(** Lines 93-96. *)
Definition acknowledgment : json_object :=
  [("status", JString "success");
   ("message", JString "Clipboard updated")].

(** The exceptions that occur.  All of them are subclasses of [Exception].
    [json.JSONDecodeError] is not listed: it is raised by [json.loads] only
    and caught at once (line 107), see [payload]. *)
Inductive exn :=
| WebSocketDisconnect
| RuntimeError
| AttributeError
| PyperclipException
| OSError.

#[global] Instance exn_eq_dec : EqDecision exn.
Proof. solve_decision. Defined.

Inductive level := INFO | WARNING | ERROR.

(** The log records of level INFO and above (the logger is configured at
    INFO, so the [logger.debug] of line 58 emits nothing). *)
Inductive log_record :=
| AlreadyConnected (device_id : string)                (* line 41 *)
| DeviceConnected (device_id : string)                 (* line 46 *)
| PairingRequestFrom (device_id : string)              (* line 65 *)
| ReceivedClipboardUpdate (device_id : string)         (* line 79 *)
| ErrorBroadcasting (client_id : string) (e : exn)     (* line 91 *)
| ReceivedText (device_id : string)                    (* line 105 *)
| ReceivedPlainText (device_id : string)               (* line 112 *)
| DeviceDisconnected (device_id : string) (e : exn)    (* line 115 *)
| ErrorWithDevice (device_id : string) (e : exn)       (* line 117 *)
| SentClipboardUpdate (device_id : string)             (* line 145 *)
| ErrorSending (device_id : string) (e : exn)          (* line 147 *)
| ClipboardMonitorError (e : exn).                     (* line 151 *)

(** The observable effects. [SendJson ws msg delivered] is one call
    [ws.send_json(msg)]: [delivered] is [false] when the call raised.
    [Copy v written] is one call [pyperclip.copy(v)]. *)
Inductive event :=
| SendJson (ws : nat) (msg : json_object) (delivered : bool)
| Copy (value : pyvalue) (written : bool)
| Close (ws : nat)
| Accept (ws : nat)
| Log (l : level) (r : log_record)
| Sleep (seconds : nat).

(** ** The dictionary [connected_clients] *)

Abbreviation dict := (list (string * nat)).

(** [d.get(k)] *)
Fixpoint dict_get (k : string) (d : dict) : option nat :=
  match d with
  | [] => None
  | (k', v) :: d' => if decide (k' = k) then Some v else dict_get k d'
  end.

(** [d[k] = v]: the value is replaced in place when the key is present, the
    entry is appended otherwise. *)
Fixpoint dict_set (k : string) (v : nat) (d : dict) : dict :=
  match d with
  | [] => [(k, v)]
  | (k', v') :: d' =>
      if decide (k' = k) then (k', v) :: d' else (k', v') :: dict_set k v d'
  end.

(** [d.pop(k, None)] *)
Fixpoint dict_pop (k : string) (d : dict) : dict :=
  match d with
  | [] => []
  | (k', v') :: d' =>
      if decide (k' = k) then dict_pop k d' else (k', v') :: dict_pop k d'
  end.

(** ** The world *)

Record world := mkWorld {
  connected_clients : dict;          (* line 22 *)
  last_clipboard : scalar;           (* line 23 *)
  sockets : gmap nat WebSocket;      (* the WebSocket objects *)
  clipboard : string;                (* the system clipboard behind pyperclip *)
  copy_raises : bool;                (* pyperclip.copy raises *)
  paste_raises : bool                (* pyperclip.paste raises *)
}.

Definition set_connected_clients (d : dict) (w : world) : world :=
  mkWorld d (last_clipboard w) (sockets w) (clipboard w)
          (copy_raises w) (paste_raises w).

Definition set_last_clipboard (s : scalar) (w : world) : world :=
  mkWorld (connected_clients w) s (sockets w) (clipboard w)
          (copy_raises w) (paste_raises w).

Definition set_sockets (m : gmap nat WebSocket) (w : world) : world :=
  mkWorld (connected_clients w) (last_clipboard w) m (clipboard w)
          (copy_raises w) (paste_raises w).

Definition set_clipboard (s : string) (w : world) : world :=
  mkWorld (connected_clients w) (last_clipboard w) (sockets w) s
          (copy_raises w) (paste_raises w).

Definition set_backend (c p : bool) (w : world) : world :=
  mkWorld (connected_clients w) (last_clipboard w) (sockets w) (clipboard w)
          c p.

(** Process start: lines 22-23. *)
Definition initial_world : world :=
  mkWorld [] "" ∅ "" false false.

(** ** The monad *)

Inductive result (A : Type) :=
| Return (a : A)
| Raise (e : exn).
Arguments Return {A} a.
Arguments Raise {A} e.

Definition M (A : Type) : Type := world → result A * world * list event.

Definition ret {A} (a : A) : M A := fun w => (Return a, w, []).

Definition bind {A B} (m : M A) (f : A → M B) : M B :=
  fun w =>
    match m w with
    | (Return a, w1, t1) =>
        match f a w1 with (r, w2, t2) => (r, w2, t1 ++ t2) end
    | (Raise e, w1, t1) => (Raise e, w1, t1)
    end.

(** [try: m except Exception as e: h e] *)
Definition try_except {A} (m : M A) (h : exn → M A) : M A :=
  fun w =>
    match m w with
    | (Return a, w1, t1) => (Return a, w1, t1)
    | (Raise e, w1, t1) =>
        match h e w1 with (r, w2, t2) => (r, w2, t1 ++ t2) end
    end.

Definition raise {A} (e : exn) : M A := fun w => (Raise e, w, []).
Definition get : M world := fun w => (Return w, w, []).
Definition modify (f : world → world) : M unit := fun w => (Return tt, f w, []).
Definition emit (e : event) : M unit := fun w => (Return tt, w, [e]).

#[global] Instance M_ret : MRet M := @ret.
#[global] Instance M_bind : MBind M := fun A B f m => bind m f.

(** Projections of what a computation gives back. *)
Definition outcome {A} (x : result A * world * list event) : result A := x.1.1.
Definition final {A} (x : result A * world * list event) : world := x.1.2.
Definition events {A} (x : result A * world * list event) : list event := x.2.

(** ** Primitives *)

Definition log (l : level) (r : log_record) : M unit := emit (Log l r).

(** [ws.application_state == WebSocketState.CONNECTED] *)
Definition is_connected (ws : nat) (w : world) : bool :=
  match sockets w !! ws with
  | Some s => bool_decide (application_state s = CONNECTED)
  | None => false
  end.

Definition set_state (st : WebSocketState) (s : WebSocket) : WebSocket :=
  mkWebSocket st (send_raises s) (close_raises s).

(** [self.application_state = WebSocketState.DISCONNECTED] on the socket
    [ws]. *)
Definition disconnect (ws : nat) (w : world) : world :=
  set_sockets (alter (set_state DISCONNECTED) ws (sockets w)) w.

(** [await ws.send_json(msg)], that is starlette's [send] with a
    [websocket.send] message.  On a socket that is CONNECTED the message goes
    to the transport; when the transport raises [OSError] the socket becomes
    DISCONNECTED and [WebSocketDisconnect] is raised.  On a socket in another
    state [send] raises [RuntimeError] and hands nothing to the
    transport. *)
Definition send_json (ws : nat) (msg : json_object) : M unit :=
  w ← get ;
  match sockets w !! ws with
  | Some s =>
      match application_state s with
      | CONNECTED =>
          if send_raises s
          then (modify (disconnect ws) ;;
                emit (SendJson ws msg false) ;;
                raise WebSocketDisconnect)
          else emit (SendJson ws msg true)
      | _ => emit (SendJson ws msg false) ;; raise RuntimeError
      end
  | None => emit (SendJson ws msg false) ;; raise RuntimeError
  end.

(** [await ws.close()], that is starlette's [send] with a
    [websocket.close] message.  A socket that is DISCONNECTED refuses it
    with [RuntimeError].  Otherwise the socket becomes DISCONNECTED first
    and the message goes to the transport then; an [OSError] of the
    transport comes out as [WebSocketDisconnect] when the socket was
    CONNECTED and as it is when the socket was still CONNECTING. *)
Definition close (ws : nat) : M unit :=
  w ← get ;
  match sockets w !! ws with
  | Some s =>
      match application_state s with
      | DISCONNECTED => raise RuntimeError
      | st =>
          modify (disconnect ws) ;;
          if close_raises s
          then raise (match st with
                      | CONNECTED => WebSocketDisconnect
                      | _ => OSError
                      end)
          else emit (Close ws)
      end
  | None => raise RuntimeError
  end.

(** [await websocket.accept()]: a socket that is CONNECTING becomes
    CONNECTED; in another state the accept message is refused with
    [RuntimeError]. *)
Definition accept (ws : nat) : M unit :=
  w ← get ;
  match sockets w !! ws with
  | Some s =>
      match application_state s with
      | CONNECTING =>
          modify (set_sockets (alter (set_state CONNECTED) ws (sockets w))) ;;
          emit (Accept ws)
      | _ => raise RuntimeError
      end
  | None => raise RuntimeError
  end.

(** [pyperclip.copy(content)]: a value that is no [str], [int], [bool] or
    [float] is refused with [PyperclipException], and so is any value when
    the backend fails; otherwise [str(content)] is on the clipboard.  The
    result is the accepted value, for the assignment that follows the call
    in the program. *)
Definition copy (content : pyvalue) : M scalar :=
  w ← get ;
  match content with
  | Scalar s =>
      if copy_raises w
      then (emit (Copy content false) ;; raise PyperclipException)
      else (modify (set_clipboard (py_str s)) ;;
            emit (Copy content true) ;;
            ret s)
  | _ => emit (Copy content false) ;; raise PyperclipException
  end.

(** [pyperclip.paste()] *)
Definition paste : M string :=
  w ← get ;
  if paste_raises w then raise PyperclipException else ret (clipboard w).

(** The test [content and content != last_clipboard] of lines 76, 102, 109
    and 133. *)
Definition is_new (content : pyvalue) (w : world) : bool :=
  py_truthy content && py_ne content (last_clipboard w).

(** [for k, v in connected_clients.items(): body k v].  [used] is the size
    of the dictionary when the iteration started; each step of the iterator,
    the last one included, raises [RuntimeError] when the dictionary has
    another size by then.  The loop bodies of the program never add an
    entry, so the entries still to visit are those of the start. *)
Fixpoint for_items (used : nat) (items : dict)
    (body : string → nat → M unit) : M unit :=
  w ← get ;
  if decide (length (connected_clients w) = used) then
    match items with
    | [] => ret tt
    | (k, v) :: rest => body k v ;; for_items used rest body
    end
  else raise RuntimeError.

Definition for_connected_clients (body : string → nat → M unit) : M unit :=
  w ← get ;
  for_items (length (connected_clients w)) (connected_clients w) body.

(** ** The session handler: [websocket_endpoint], lines 35-124 *)

(** What [json.loads(data)] makes of a received text, as far as the handler
    looks at it.  [json.loads] itself is library code: the model takes its
    outcome.
    - [NotJson data]: [json.loads] raises [JSONDecodeError]; the handler
      then uses the raw [data].
    - [JsonObject type text]: a JSON object; [type] is the string under the
      key ['type'] ([None] when the key is absent or its value is no string:
      both comparisons of lines 64 and 74 are then false), [text] is what
      [message['text']] gives, any JSON value, and [None] when
      ['text' in message] is false.
    - [JsonOther]: valid JSON that is not an object (a number, a string, a
      list, ...): [message.get] raises [AttributeError]. *)
Inductive payload :=
| NotJson (data : string)
| JsonObject (type : option string) (text : option pyvalue)
| JsonOther.

(** What [await websocket.receive_text()] gives: a text, or an exception. *)
Inductive received :=
| Text (p : payload)
| ReceiveRaises (e : exn).

(** Lines 83-91: what the fan-out of the session handler does with one
    entry of the dictionary. *)
Definition session_send (device_id : string) (content : pyvalue)
    (client_id : string) (client_ws : nat) : M unit :=
  w ← get ;
  if bool_decide (client_id ≠ device_id) && is_connected client_ws w then
    try_except
      (send_json client_ws (clipboard_update content device_id))
      (fun e => log ERROR (ErrorBroadcasting client_id e))
  else ret tt.

(** Lines 82-91: the fan-out of the session handler. *)
Definition session_broadcast (device_id : string) (content : pyvalue)
    : M unit :=
  for_connected_clients (session_send device_id content).

(** Lines 76-91: the gate and, behind it, the backend write, the
    assignment of [last_clipboard] and the fan-out. *)
Definition session_apply_and_broadcast (device_id : string)
    (content : pyvalue) : M unit :=
  w ← get ;
  if is_new content w then
    accepted ← copy content ;
    modify (set_last_clipboard accepted) ;;
    log INFO (ReceivedClipboardUpdate device_id) ;;
    session_broadcast device_id content
  else ret tt.

(** Lines 102-105 and 109-112: the two fallbacks adopt the text locally. *)
Definition fallback_update (content : pyvalue) (r : log_record) : M unit :=
  w ← get ;
  if is_new content w then
    accepted ← copy content ;
    modify (set_last_clipboard accepted) ;;
    log INFO r
  else ret tt.

(** Lines 60-112: the body of the receive loop, once a text is there. *)
Definition handle_text (websocket : nat) (device_id : string) (p : payload)
    : M unit :=
  match p with
  | NotJson data => fallback_update data (ReceivedPlainText device_id)
  | JsonOther => raise AttributeError
  | JsonObject type text =>
      if bool_decide (type = Some "pairing_request") then
        log INFO (PairingRequestFrom device_id) ;;
        send_json websocket pairing_response
      else
        match text with
        | Some content =>
            if bool_decide (type = Some "clipboard_update") then
              session_apply_and_broadcast device_id content ;;
              send_json websocket acknowledgment
            else fallback_update content (ReceivedText device_id)
        | None => ret tt
        end
  end.

(** Lines 114-124: the handlers and the [finally] of the receive loop.  The
    loop has no exit of its own, so the [finally] runs after a handler. *)
Definition session_cleanup (device_id : string) (e : exn) : M unit :=
  (match e with
   | WebSocketDisconnect => log WARNING (DeviceDisconnected device_id e)
   | _ => log ERROR (ErrorWithDevice device_id e)
   end) ;;
  w ← get ;
  modify (set_connected_clients (dict_pop device_id (connected_clients w))).

(** One turn of the receive loop, lines 56-124.  The result is [true] when
    the loop goes on with the next [receive_text], [false] when the session
    has ended (an exception reached the handlers of lines 114-117). *)
Definition session_turn (websocket : nat) (device_id : string) (r : received)
    : M bool :=
  try_except
    (match r with
     | Text p => handle_text websocket device_id p
     | ReceiveRaises e => raise e
     end ;;
     ret true)
    (fun e => session_cleanup device_id e ;; ret false).

(** Lines 39-46: the endpoint before its [try].  An exception raised here
    leaves the endpoint at once: nothing is registered and no cleanup runs. *)
Definition session_open (websocket : nat) (device_id : string) : M unit :=
  w ← get ;
  match dict_get device_id (connected_clients w) with
  | Some previous =>
      log WARNING (AlreadyConnected device_id) ;;
      close previous
  | None => ret tt
  end ;;
  accept websocket ;;
  w ← get ;
  modify (set_connected_clients (dict_set device_id websocket (connected_clients w))) ;;
  log INFO (DeviceConnected device_id).

(** ** The poller: [monitor], lines 128-153 *)

(** Lines 138-148: what the fan-out of the poller does with one entry of
    the dictionary. *)
Definition monitor_send (content device_id : string) (ws : nat) : M unit :=
  w ← get ;
  if is_connected ws w then
    try_except
      (send_json ws (clipboard_update content "desktop") ;;
       log INFO (SentClipboardUpdate device_id))
      (fun e =>
         log ERROR (ErrorSending device_id e) ;;
         w ← get ;
         modify (set_connected_clients (dict_pop device_id (connected_clients w))))
  else ret tt.

(** Lines 137-148: the fan-out of the poller. *)
Definition monitor_broadcast (content : string) : M unit :=
  for_connected_clients (monitor_send content).

(** Lines 133-148. *)
Definition monitor_apply_and_broadcast (content : string) : M unit :=
  w ← get ;
  if is_new content w then
    modify (set_last_clipboard content) ;;
    monitor_broadcast content
  else ret tt.

(** Lines 132-148: what the [try] of the loop protects. *)
Definition monitor_body : M unit :=
  content ← paste ;
  monitor_apply_and_broadcast content.

(** Lines 131-153: one turn of [while True]. *)
Definition monitor_turn : M unit :=
  try_except monitor_body (fun e => log ERROR (ClipboardMonitorError e)) ;;
  emit (Sleep 1).

(** ** Runs of the whole server *)

(** What the environment does between two steps of the program. *)
Inductive env_event :=
| UserCopies (s : string)                     (* the local clipboard changes *)
| SocketBecomes (ws : nat) (s : WebSocket)    (* a socket is created or changes *)
| BackendBecomes (copy_raises paste_raises : bool).

Definition env_step (e : env_event) (w : world) : world :=
  match e with
  | UserCopies s => set_clipboard s w
  | SocketBecomes ws s => set_sockets (<[ws := s]> (sockets w)) w
  | BackendBecomes c p => set_backend c p w
  end.

(** The steps of the server: a connection is opened, a session makes one
    turn of its receive loop, the poller makes one turn of its loop, or the
    environment moves.  Each step runs to its end before the next one
    starts. *)
Inductive action :=
| Open (websocket : nat) (device_id : string)
| Turn (websocket : nat) (device_id : string) (r : received)
| Tick
| Env (e : env_event).

Definition step (a : action) (w : world) : world * list event :=
  match a with
  | Open ws id => let x := session_open ws id w in (final x, events x)
  | Turn ws id r => let x := session_turn ws id r w in (final x, events x)
  | Tick => let x := monitor_turn w in (final x, events x)
  | Env e => (env_step e w, [])
  end.

Fixpoint run (acts : list action) (w : world) : world * list event :=
  match acts with
  | [] => (w, [])
  | a :: acts' =>
      let '(w1, t1) := step a w in
      let '(w2, t2) := run acts' w1 in
      (w2, t1 ++ t2)
  end.

(** The poller with its environment: [monitor envs] makes one turn of the
    loop per element of [envs], after the environment has made the moves of
    that element.  The result is the outcome of the last turn made: the
    loop stops early only if a turn raises. *)
Fixpoint monitor (envs : list (list env_event)) : M unit :=
  match envs with
  | [] => ret tt
  | es :: envs' =>
      modify (fun w => foldl (fun w e => env_step e w) w es) ;;
      monitor_turn ;;
      monitor envs'
  end.

(** ** The pairing code: [generate_pairing_code], lines 179-180 *)

(** [string.ascii_uppercase + string.digits] *)
Definition pairing_alphabet : list Ascii.ascii :=
  String.list_ascii_of_string "ABCDEFGHIJKLMNOPQRSTUVWXYZ0123456789".

(** [random.choices(population, k=k)]: the [i]-th element is
    [population[floor(random() * len(population))]].  The random source is
    an input: [rnd i] is the index drawn for the [i]-th element.  An index
    out of range gives no result (Python would raise [IndexError]; the
    indices of [random.choices] are always in range). *)
Definition choices (population : list Ascii.ascii) (k : nat) (rnd : nat → nat)
    : option (list Ascii.ascii) :=
  mapM (λ i, population !! rnd i) (seq 0 k).

(** [''.join(random.choices(string.ascii_uppercase + string.digits, k=6))] *)
Definition generate_pairing_code (rnd : nat → nat) : option string :=
  String.string_of_list_ascii <$> choices pairing_alphabet 6 rnd.

(** An upper-case letter or a digit. *)
Definition is_code_char (c : Ascii.ascii) : bool :=
  let n := Ascii.nat_of_ascii c in
  (Nat.leb 65 n && Nat.leb n 90) || (Nat.leb 48 n && Nat.leb n 57).

(** ** Vocabulary of the statements *)

(** A dictionary has each key once. *)
Definition dict_wf (d : dict) : Prop := NoDup d.*1.

(** [send_json] on the socket [ws] does not raise: the socket is CONNECTED
    and its transport takes the message. *)
Definition send_ok (ws : nat) (w : world) : bool :=
  match sockets w !! ws with
  | Some s =>
      bool_decide (application_state s = CONNECTED) && negb (send_raises s)
  | None => false
  end.

(** What [send_json] raises on [ws] when it raises, and the world it
    leaves. *)
Definition send_error (ws : nat) (w : world) : exn :=
  if is_connected ws w then WebSocketDisconnect else RuntimeError.

Definition send_failed (ws : nat) (w : world) : world :=
  if is_connected ws w then disconnect ws w else w.

(** The value [pyperclip.copy] accepts, if it does. *)
Definition accepted (content : pyvalue) (w : world) : option scalar :=
  match content with
  | Scalar s => if copy_raises w then None else Some s
  | _ => None
  end.

(** The guard of line 83 on an entry of the dictionary. *)
Definition eligible (device_id : string) (w : world) (kv : string * nat) : bool :=
  bool_decide (kv.1 ≠ device_id) && is_connected kv.2 w.

(** The events of [session_send] on one entry, and the world it leaves. *)
Definition session_send_events (device_id : string) (content : pyvalue)
    (w : world) (client_id : string) (client_ws : nat) : list event :=
  if eligible device_id w (client_id, client_ws) then
    if send_ok client_ws w
    then [SendJson client_ws (clipboard_update content device_id) true]
    else [SendJson client_ws (clipboard_update content device_id) false;
          Log ERROR (ErrorBroadcasting client_id WebSocketDisconnect)]
  else [].

Definition session_send_world (device_id : string) (w : world)
    (client_id : string) (client_ws : nat) : world :=
  if eligible device_id w (client_id, client_ws) && negb (send_ok client_ws w)
  then disconnect client_ws w
  else w.

(** The events of [monitor_send] on one entry whose send does not raise. *)
Definition monitor_send_events (content : string) (w : world)
    (device_id : string) (ws : nat) : list event :=
  if is_connected ws w then
    [SendJson ws (clipboard_update content "desktop") true;
     Log INFO (SentClipboardUpdate device_id)]
  else [].

(** No [send_json] was called. *)
Definition no_send (t : list event) : Prop :=
  ∀ ws msg delivered, SendJson ws msg delivered ∉ t.

(** No [send_json] was called on the socket [ws]. *)
Definition no_send_to (ws : nat) (t : list event) : Prop :=
  ∀ msg delivered, SendJson ws msg delivered ∉ t.

(** The calls of [send_json] among the events, in order: the socket, the
    message and whether it was delivered. *)
Fixpoint sends_of (t : list event) : list (nat * json_object * bool) :=
  match t with
  | [] => []
  | SendJson ws msg delivered :: t' => (ws, msg, delivered) :: sends_of t'
  | _ :: t' => sends_of t'
  end.

(** The inbound message [{"type": "clipboard_update", "text": content}]. *)
Definition tagged_update (content : pyvalue) : received :=
  Text (JsonObject (Some "clipboard_update") (Some content)).

(** The payloads of the two fallbacks with their text: a JSON object with a
    text and a type that is neither of the two tags, or a text that is no
    JSON. *)
Definition fallback_text (p : payload) : option pyvalue :=
  match p with
  | NotJson data => Some (JString data)
  | JsonObject type text =>
      if bool_decide (type = Some "pairing_request") then None
      else if bool_decide (type = Some "clipboard_update") then None
      else text
  | JsonOther => None
  end.

(** The payloads that carry a clipboard text: the tagged update and the
    two fallbacks. *)
Definition update_text (p : payload) : option pyvalue :=
  match p with
  | NotJson data => Some (JString data)
  | JsonObject type text =>
      if bool_decide (type = Some "pairing_request") then None else text
  | JsonOther => None
  end.

(** What a fan-out over the dictionary of [w] may emit: a send to a
    registered socket that is CONNECTED, or a log record that names the
    identifier of such a socket. *)
Definition fanout_event (w : world) (e : event) : Prop :=
  match e with
  | SendJson ws _ _ =>
      is_connected ws w = true ∧ ∃ k, (k, ws) ∈ connected_clients w
  | Log _ (ErrorBroadcasting k _)
  | Log _ (ErrorSending k _)
  | Log _ (SentClipboardUpdate k) =>
      ∃ ws, (k, ws) ∈ connected_clients w ∧ is_connected ws w = true
  | _ => False
  end.

(** What the fan-out of the session of [device_id] may emit: besides
    being events of a fan-out, its sends carry the update with [device_id]
    as the source and go to sockets registered under another identifier. *)
Definition session_event (w : world) (device_id : string) (content : pyvalue)
    (e : event) : Prop :=
  fanout_event w e ∧
  match e with
  | SendJson ws msg _ =>
      msg = clipboard_update content device_id ∧
      ∃ k, k ≠ device_id ∧ (k, ws) ∈ connected_clients w
  | _ => True
  end.

(** No error was logged about the identifier [client_id] by a fan-out. *)
Definition no_error_for (client_id : string) (t : list event) : Prop :=
  ∀ l e, (Log l (ErrorBroadcasting client_id e) ∉ t) ∧
         (Log l (ErrorSending client_id e) ∉ t).

(** The sockets of [w'] are those of [w], but that some sockets that were
    CONNECTED in [w] with a transport that raises are DISCONNECTED in
    [w']: what failed sends do to the store. *)
Definition sockets_decay (w w' : world) : Prop :=
  ∀ ws,
    sockets w' !! ws = sockets w !! ws ∨
    ∃ s, sockets w !! ws = Some s ∧
         application_state s = CONNECTED ∧ send_raises s = true ∧
         sockets w' !! ws = Some (set_state DISCONNECTED s).

(** [w'] is [w] but for the sockets. *)
Definition same_but_sockets (w w' : world) : Prop :=
  connected_clients w' = connected_clients w ∧
  last_clipboard w' = last_clipboard w ∧
  clipboard w' = clipboard w ∧
  copy_raises w' = copy_raises w ∧
  paste_raises w' = paste_raises w.

(** What the fan-out of a session, started in [w], keeps. *)
Definition session_inv (w : world) (device_id : string) (content : pyvalue)
    (w' : world) (t : list event) : Prop :=
  sockets_decay w w' ∧
  same_but_sockets w w' ∧
  Forall (session_event w device_id content) t.

(** What the fan-out of the poller, started in [w], keeps whatever the
    sends do: the dictionary only loses entries whose socket was CONNECTED
    (when the keys of the dictionary are unique), sockets only change by a
    failed send. *)
Definition monitor_inv (w w' : world) (t : list event) : Prop :=
  sockets_decay w w' ∧
  last_clipboard w' = last_clipboard w ∧
  clipboard w' = clipboard w ∧
  copy_raises w' = copy_raises w ∧
  paste_raises w' = paste_raises w ∧
  connected_clients w' ⊆ connected_clients w ∧
  Forall (fanout_event w) t ∧
  (dict_wf (connected_clients w) → dict_wf (connected_clients w')) ∧
  (dict_wf (connected_clients w) →
   ∀ k v, (k, v) ∈ connected_clients w → is_connected v w = false →
          (k, v) ∈ connected_clients w').

(** The record that the handlers of lines 114-117 log for [e]. *)
Definition cleanup_event (device_id : string) (e : exn) : event :=
  match e with
  | WebSocketDisconnect => Log WARNING (DeviceDisconnected device_id e)
  | _ => Log ERROR (ErrorWithDevice device_id e)
  end.

(** The number of [asyncio.sleep] among the events. *)
Fixpoint sleeps (t : list event) : nat :=
  match t with
  | [] => 0
  | Sleep _ :: t' => S (sleeps t')
  | _ :: t' => sleeps t'
  end.

(** Each socket is registered under one identifier. *)
Definition sockets_distinct (d : dict) : Prop := NoDup d.*2.

(** [last_clipboard] in [w'] is the one of [w], or a value that is true
    and that [!=] tells from the one of [w]. *)
Definition gated (w w' : world) : Prop :=
  last_clipboard w' = last_clipboard w ∨
  (py_truthy (last_clipboard w') = true ∧
   py_ne (last_clipboard w') (last_clipboard w) = true).

(** [last_clipboard] holds a [str]. *)
Definition holds_str (w : world) : Prop := ∃ s, last_clipboard w = SStr s.

(** The steps that bring no text that is not a [str]: all of them but the
    turn of a receive loop on a JSON object whose text is another value. *)
Definition brings_str (a : action) : Prop :=
  match a with
  | Turn _ _ (Text (JsonObject _ (Some v))) => ∃ s, v = JString s
  | _ => True
  end.

(** Sample sockets and worlds. *)
Definition healthy : WebSocket := mkWebSocket CONNECTED false false.
Definition broken : WebSocket := mkWebSocket CONNECTED true false.
Definition gone : WebSocket := mkWebSocket DISCONNECTED false false.
Definition fresh : WebSocket := mkWebSocket CONNECTING false false.

(** Three registered connections, the second one broken. *)
Definition three_clients : world :=
  mkWorld [("d1", 1); ("d2", 2); ("d3", 3)] ""
          (<[1 := healthy]> (<[2 := broken]> (<[3 := healthy]> ∅)))
          "" false false.

(** Two registered healthy connections. *)
Definition two_clients : world :=
  mkWorld [("d1", 1); ("d2", 2)] ""
          (<[1 := healthy]> (<[2 := healthy]> ∅))
          "" false false.

(** Two registered connections, the first one no longer connected. *)
Definition one_gone : world :=
  mkWorld [("d1", 1); ("d2", 2)] ""
          (<[1 := gone]> (<[2 := healthy]> ∅))
          "" false false.

(** Two sockets that wait to be accepted, nothing registered. *)
Definition two_fresh_sockets : world :=
  mkWorld [] "" (<[1 := fresh]> (<[2 := fresh]> ∅)) "" false false.

(** Three registered connections, the first one healthy, the second one
    broken, the third one healthy, and a new text on the clipboard. *)
Definition three_clients_hello : world := set_clipboard "hello" three_clients.

(** d1 is registered, and the transport of its socket raises on a close. *)
Definition stuck_client : world :=
  mkWorld [("d1", 1)] ""
          (<[1 := mkWebSocket CONNECTED false true]> (<[2 := fresh]> ∅))
          "" false false.

(** d1 is registered with a socket that is DISCONNECTED already. *)
Definition stale_client : world :=
  mkWorld [("d1", 1)] ""
          (<[1 := gone]> (<[2 := fresh]> ∅))
          "" false false.

(** The float not-a-number, as [json.loads] gives it for [NaN]. *)
Definition nan : pyvalue := PFloat FNan.

(** ** Tactics *)

(** Unfolds the operations of the monad in the goal. *)
Ltac monad :=
  repeat (unfold mbind, M_bind, mret, M_ret, bind, try_except, ret, get,
            modify, emit, raise, log; cbn).

(** Refutes the hypothesis [H] that an event of another kind is in an
    explicit list. *)
Ltac not_in_list H :=
  repeat (apply elem_of_cons in H as [H|H]; [discriminate H|]);
  by apply elem_of_nil in H.

(** Closes [no_send t] and [no_send_to ws t] for an explicit list [t]. *)
Ltac no_send_in_list :=
  let H := fresh "Hsend" in
  unfold no_send, no_send_to; intros; intro H; not_in_list H.

(** * Properties *)

(** ** The dictionary *)

Lemma dict_pop_subseteq k (d : dict) : dict_pop k d ⊆ d.
Proof.
  induction d as [|[k' v'] d IH]; simpl; [done|].
  destruct (decide (k' = k)); set_solver.
Qed.

Lemma dict_pop_other k k' v (d : dict) :
  k' ≠ k → (k', v) ∈ d → (k', v) ∈ dict_pop k d.
Proof.
  intros Hne. induction d as [|[k0 v0] d IH]; simpl; [done|].
  intros Hin. apply elem_of_cons in Hin as [Heq|Hin].
  - inversion Heq; subst. rewrite decide_False by done. by left.
  - case_decide; [by apply IH|]. right. by apply IH.
Qed.

Lemma dict_pop_gone k (d : dict) : dict_get k (dict_pop k d) = None.
Proof.
  induction d as [|[k' v'] d IH]; simpl; [done|].
  case_decide; [done|]. simpl. by rewrite decide_False.
Qed.

Lemma dict_pop_keys k (d : dict) : (dict_pop k d).*1 ⊆ d.*1.
Proof.
  induction d as [|[k' v'] d IH]; simpl; [done|].
  destruct (decide (k' = k)); simpl; set_solver.
Qed.

Lemma dict_pop_wf k (d : dict) : dict_wf d → dict_wf (dict_pop k d).
Proof.
  unfold dict_wf. induction d as [|[k' v'] d IH]; simpl; [done|].
  intros [Hnotin Hnd]%NoDup_cons. case_decide; [by apply IH|].
  simpl. apply NoDup_cons. split; [|by apply IH].
  intros Hin. apply Hnotin. by apply (dict_pop_keys k).
Qed.

Lemma dict_set_keys k v (d : dict) k' :
  k' ∈ (dict_set k v d).*1 → k' = k ∨ k' ∈ d.*1.
Proof.
  induction d as [|[k0 v0] d IH]; simpl.
  - intros ->%list_elem_of_singleton. by left.
  - case_decide; simpl.
    + intros Hin. by right.
    + intros [->|Hin]%elem_of_cons; [right; by left|].
      destruct (IH Hin) as [->|?]; [by left|right; by right].
Qed.

Lemma dict_set_wf k v (d : dict) : dict_wf d → dict_wf (dict_set k v d).
Proof.
  unfold dict_wf. induction d as [|[k' v'] d IH]; simpl.
  - intros _. apply NoDup_singleton.
  - intros [Hnotin Hnd]%NoDup_cons. case_decide; simpl.
    + by apply NoDup_cons.
    + apply NoDup_cons. split; [|by apply IH].
      intros [->|Hin]%dict_set_keys; done.
Qed.

Lemma dict_set_get k v (d : dict) : dict_get k (dict_set k v d) = Some v.
Proof.
  induction d as [|[k' v'] d IH]; simpl.
  - by rewrite decide_True.
  - destruct (decide (k' = k)) as [Hk|Hk]; simpl.
    + by rewrite decide_True.
    + by rewrite decide_False.
Qed.

(** In a dictionary a key has one value. *)
Lemma dict_wf_functional (d : dict) k v1 v2 :
  dict_wf d → (k, v1) ∈ d → (k, v2) ∈ d → v1 = v2.
Proof.
  unfold dict_wf. induction d as [|[k' v'] d IH]; simpl; [by intros _ ?%elem_of_nil|].
  intros [Hnotin Hnd]%NoDup_cons H1 H2.
  apply elem_of_cons in H1 as [H1|H1]; apply elem_of_cons in H2 as [H2|H2].
  - congruence.
  - inversion H1; subst. exfalso. apply Hnotin.
    apply (list_elem_of_fmap_2 fst) in H2. done.
  - inversion H2; subst. exfalso. apply Hnotin.
    apply (list_elem_of_fmap_2 fst) in H1. done.
  - by apply IH.
Qed.

Lemma dict_get_pop_ne k k' (d : dict) :
  k' ≠ k → dict_get k' (dict_pop k d) = dict_get k' d.
Proof.
  intros Hne. induction d as [|[k0 v0] d IH]; simpl; [done|].
  destruct (decide (k0 = k)) as [->|Hk]; simpl.
  - by rewrite decide_False.
  - by rewrite IH.
Qed.

Lemma dict_pop_idem k (d : dict) : dict_pop k (dict_pop k d) = dict_pop k d.
Proof.
  induction d as [|[k0 v0] d IH]; simpl; [done|].
  destruct (decide (k0 = k)) as [->|Hk]; simpl; [done|].
  by rewrite decide_False, IH.
Qed.

Lemma dict_pop_length_le k (d : dict) :
  (length (dict_pop k d) ≤ length d)%nat.
Proof.
  induction d as [|[k0 v0] d IH]; simpl; [done|].
  destruct (decide (k0 = k)); simpl; lia.
Qed.

Lemma dict_pop_length_lt k v (d : dict) :
  (k, v) ∈ d → (length (dict_pop k d) < length d)%nat.
Proof.
  induction d as [|[k0 v0] d IH]; simpl; [by intros ?%elem_of_nil|].
  intros [[= <- <-]|Hin]%elem_of_cons.
  - rewrite decide_True by done. pose proof (dict_pop_length_le k d). lia.
  - destruct (decide (k0 = k)); simpl.
    + pose proof (dict_pop_length_le k d). lia.
    + apply IH in Hin. lia.
Qed.

Lemma dict_get_set_ne k k' v (d : dict) :
  k' ≠ k → dict_get k' (dict_set k v d) = dict_get k' d.
Proof.
  intros Hne. induction d as [|[k0 v0] d IH]; simpl.
  - destruct (decide (k = k')); congruence.
  - destruct (decide (k0 = k)) as [->|Hk]; simpl.
    + destruct (decide (k = k')); congruence.
    + by rewrite IH.
Qed.

Lemma dict_set_length k v (d : dict) :
  length (dict_set k v d) =
    match dict_get k d with
    | Some _ => length d
    | None => S (length d)
    end.
Proof.
  induction d as [|[k0 v0] d IH]; simpl; [done|].
  destruct (decide (k0 = k)); simpl; [done|].
  rewrite IH. by destruct (dict_get k d).
Qed.

Lemma dict_pop_absent k (d : dict) : dict_get k d = None → dict_pop k d = d.
Proof.
  induction d as [|[k0 v0] d IH]; simpl; [done|].
  destruct (decide (k0 = k)); [done|]. intros H. by rewrite IH.
Qed.

(** ** The values of Python *)

Lemma dyadic_eq_refl m e : dyadic_eq m e m e = true.
Proof. unfold dyadic_eq. by apply bool_decide_eq_true. Qed.

(** Every value [pyperclip.copy] accepts equals itself, but the float
    not-a-number. *)
Lemma scalar_eq_refl (s : scalar) : s ≠ SFloat FNan → scalar_eq s s = true.
Proof.
  destruct s as [s|z|b|[|n|m e r]]; intros Hnan; cbn;
    first [ done
          | by apply bool_decide_eq_true
          | apply dyadic_eq_refl ].
Qed.

Lemma py_ne_str (s1 s2 : string) :
  py_ne (JString s1) (SStr s2) = bool_decide (s1 ≠ s2).
Proof.
  cbn. destruct (decide (s1 = s2)) as [->|Hne].
  - rewrite (bool_decide_eq_true_2 (s2 = s2)) by done.
    by rewrite (bool_decide_eq_false_2 (s2 ≠ s2)) by (intros H; by apply H).
  - rewrite (bool_decide_eq_false_2 (s1 = s2)) by done.
    by rewrite (bool_decide_eq_true_2 (s1 ≠ s2)) by done.
Qed.

(** ** The gate *)

Lemma is_new_true content w :
  is_new content w = true ↔
  py_truthy content = true ∧ py_ne content (last_clipboard w) = true.
Proof. unfold is_new. by rewrite andb_true_iff. Qed.

Lemma is_new_false content w :
  is_new content w = false ↔
  py_truthy content = false ∨ py_ne content (last_clipboard w) = false.
Proof. unfold is_new. by rewrite andb_false_iff. Qed.

(** A value that has just been assigned is not new, unless it is
    not-a-number. *)
Lemma is_new_after (s : scalar) (w' : world) :
  s ≠ SFloat FNan → last_clipboard w' = s → is_new s w' = false.
Proof.
  intros Hnan Hlast. apply is_new_false. right. cbn.
  by rewrite Hlast, scalar_eq_refl.
Qed.

(** ** The primitives and the loop *)

Lemma bind_get {A} (f : world → M A) w : (get ≫= f) w = f w w.
Proof. monad. by destruct (f w w) as [[r w2] t2]. Qed.

Lemma for_connected_clients_unfold body w :
  for_connected_clients body w =
    for_items (length (connected_clients w)) (connected_clients w) body w.
Proof. unfold for_connected_clients. by rewrite bind_get. Qed.

Lemma send_ok_connected ws w : send_ok ws w = true → is_connected ws w = true.
Proof.
  unfold send_ok, is_connected. destruct (sockets w !! ws); [|done].
  by intros [? _]%andb_true_iff.
Qed.

Lemma send_json_spec ws msg w :
  send_json ws msg w =
    if send_ok ws w then (Return tt, w, [SendJson ws msg true])
    else (Raise (send_error ws w), send_failed ws w, [SendJson ws msg false]).
Proof.
  unfold send_json, send_ok, send_error, send_failed, is_connected. monad.
  destruct (sockets w !! ws) as [s|]; [|done].
  destruct (application_state s); cbn; try done.
  by destruct (send_raises s).
Qed.

Lemma copy_spec content w :
  copy content w =
    match accepted content w with
    | Some s => (Return s, set_clipboard (py_str s) w, [Copy content true])
    | None => (Raise PyperclipException, w, [Copy content false])
    end.
Proof.
  unfold copy, accepted. monad. destruct content as [s| | |]; try done.
  by destruct (copy_raises w).
Qed.

Lemma session_send_spec device_id content client_id client_ws w :
  session_send device_id content client_id client_ws w =
    (Return tt,
     session_send_world device_id w client_id client_ws,
     session_send_events device_id content w client_id client_ws).
Proof.
  unfold session_send, session_send_events, session_send_world, eligible.
  monad.
  destruct (bool_decide (client_id ≠ device_id) && is_connected client_ws w)
    eqn:Hel; [|done].
  apply andb_true_iff in Hel as [_ Hconn].
  rewrite send_json_spec. unfold send_error, send_failed. rewrite Hconn.
  by destruct (send_ok client_ws w).
Qed.

Lemma monitor_send_spec (content : string) device_id ws w :
  monitor_send content device_id ws w =
    if is_connected ws w then
      if send_ok ws w then
        (Return tt, w,
         [SendJson ws (clipboard_update content "desktop") true;
          Log INFO (SentClipboardUpdate device_id)])
      else
        (Return tt,
         set_connected_clients (dict_pop device_id (connected_clients w))
           (disconnect ws w),
         [SendJson ws (clipboard_update content "desktop") false;
          Log ERROR (ErrorSending device_id WebSocketDisconnect)])
    else (Return tt, w, []).
Proof.
  unfold monitor_send. monad.
  destruct (is_connected ws w) eqn:Hconn; [|done].
  rewrite send_json_spec. unfold send_error, send_failed. rewrite Hconn.
  by destruct (send_ok ws w).
Qed.

(** A loop whose bodies leave the world as it is visits every entry. *)
Lemma for_items_pure (body : string → nat → M unit)
    (g : string → nat → list event) (items : dict) (w : world) :
  (∀ k v, (k, v) ∈ items → body k v w = (Return tt, w, g k v)) →
  for_items (length (connected_clients w)) items body w =
    (Return tt, w, flat_map (λ kv, g kv.1 kv.2) items).
Proof.
  induction items as [|[k v] items IH]; intros Hbody; cbn; monad.
  - by rewrite decide_True.
  - rewrite decide_True by done.
    rewrite (Hbody k v) by (by left).
    rewrite IH; [done|]. intros k' v' Hin. apply Hbody. by right.
Qed.

(** The loop rule: a property of the world and of the events emitted so far
    that every body keeps, and no body raises, holds when the loop is left,
    and the loop is left normally or by the [RuntimeError] of the
    iterator.  The bodies are only run while the dictionary has the size it
    had when the iteration started. *)
Lemma for_items_rule (I : world → list event → Prop)
    (body : string → nat → M unit) (used : nat) (items : dict) :
  (∀ k v w t, (k, v) ∈ items → I w t → length (connected_clients w) = used →
     ∃ w' t', body k v w = (Return tt, w', t') ∧ I w' (t ++ t')) →
  ∀ w t, I w t →
    I (final (for_items used items body w))
      (t ++ events (for_items used items body w)) ∧
    (outcome (for_items used items body w) = Return tt ∨
     outcome (for_items used items body w) = Raise RuntimeError) ∧
    (length (connected_clients (final (for_items used items body w))) = used →
     outcome (for_items used items body w) = Return tt).
Proof.
  induction items as [|[k v] items IH]; intros Hbody w t HI; cbn; monad.
  - destruct (decide _); cbn; rewrite app_nil_r; split_and!; eauto; done.
  - destruct (decide _) as [Hsize|]; cbn;
      [|rewrite app_nil_r; split_and!; eauto; done].
    destruct (Hbody k v w t) as (w' & t' & -> & HI'); [by left|done..|].
    destruct (IH (λ k' v' w0 t0 Hin, Hbody k' v' w0 t0 (list_elem_of_further _ _ _ Hin))
                 w' (t ++ t') HI') as (HI'' & Hout & Hret).
    destruct (for_items used items body w') as [[r w''] t''] eqn:E.
    cbn in *. by rewrite app_assoc.
Qed.

(** Once the dictionary has another size the iterator raises at its next
    step, whatever is left to visit. *)
Lemma for_items_size_changed body used items w :
  length (connected_clients w) ≠ used →
  for_items used items body w = (Raise RuntimeError, w, []).
Proof.
  intros Hne. destruct items as [|[k v] items]; cbn; monad;
    by rewrite decide_False.
Qed.

Lemma for_items_app_pure (body : string → nat → M unit)
    (g : string → nat → list event) (pre rest : dict) (w : world) :
  (∀ k v, (k, v) ∈ pre → body k v w = (Return tt, w, g k v)) →
  for_items (length (connected_clients w)) (pre ++ rest) body w =
    (outcome (for_items (length (connected_clients w)) rest body w),
     final (for_items (length (connected_clients w)) rest body w),
     flat_map (λ kv, g kv.1 kv.2) pre ++
     events (for_items (length (connected_clients w)) rest body w)).
Proof.
  induction pre as [|[k v] pre IH]; intros Hbody.
  - cbn. by destruct (for_items _ rest body w) as [[r w1] t1].
  - rewrite <-app_comm_cons. cbn [for_items]. monad.
    rewrite decide_True by done.
    rewrite (Hbody k v) by (by left).
    rewrite IH by (intros k' v' Hin; apply Hbody; by right).
    cbn. by rewrite <-app_assoc.
Qed.

(** ** What failed sends do to the sockets *)

Lemma sockets_decay_refl w : sockets_decay w w.
Proof. intros ws. by left. Qed.

Lemma decay_send_ok w w' ws :
  sockets_decay w w' → send_ok ws w' = send_ok ws w.
Proof.
  intros Hd. unfold send_ok.
  destruct (Hd ws) as [->|(s & -> & Hst & Hraises & ->)]; [done|].
  cbn. rewrite Hraises. by rewrite !andb_false_r.
Qed.

Lemma decay_connected w w' ws :
  sockets_decay w w' → is_connected ws w' = true → is_connected ws w = true.
Proof.
  intros Hd. unfold is_connected.
  destruct (Hd ws) as [->|(s & -> & Hst & Hraises & ->)]; [done|].
  cbn. by rewrite Hst.
Qed.

Lemma decay_not_connected w w' ws :
  sockets_decay w w' → is_connected ws w = false → is_connected ws w' = false.
Proof.
  intros Hd Hc. destruct (is_connected ws w') eqn:Hc'; [|done].
  apply (decay_connected w w' ws Hd) in Hc'. congruence.
Qed.

(** A socket on which a send would go through is untouched. *)
Lemma decay_send_ok_same w w' ws :
  sockets_decay w w' → send_ok ws w = true →
  sockets w' !! ws = sockets w !! ws.
Proof.
  intros Hd. unfold send_ok.
  destruct (Hd ws) as [?|(s & -> & Hst & Hraises & ?)]; [done|].
  rewrite Hraises. by rewrite andb_false_r.
Qed.

Lemma is_connected_send_raises ws w :
  is_connected ws w = true → send_ok ws w = false →
  ∃ s, sockets w !! ws = Some s ∧
       application_state s = CONNECTED ∧ send_raises s = true.
Proof.
  unfold is_connected, send_ok. destruct (sockets w !! ws) as [s|]; [|done].
  intros Hc%bool_decide_eq_true. rewrite bool_decide_eq_true_2 by done.
  cbn. intros Hr%negb_false_iff. eauto.
Qed.

Lemma decay_disconnect w w' v :
  sockets_decay w w' → is_connected v w' = true → send_ok v w' = false →
  sockets_decay w (disconnect v w').
Proof.
  intros Hd Hc Hok ws. cbn.
  destruct (decide (ws = v)) as [->|Hne].
  - destruct (is_connected_send_raises v w' Hc Hok) as (s & Hs & Hst & Hr).
    right. exists s.
    destruct (Hd v) as [Heq|(s0 & _ & _ & _ & Hs')].
    + rewrite <-Heq. split; [done|]. split; [done|]. split; [done|].
      by rewrite lookup_alter_eq, Hs.
    + rewrite Hs in Hs'. injection Hs' as ->. done.
  - rewrite lookup_alter_ne by done. apply Hd.
Qed.

Lemma disconnect_not_connected v w : is_connected v (disconnect v w) = false.
Proof.
  unfold is_connected. cbn. rewrite lookup_alter_eq.
  by destruct (sockets w !! v).
Qed.

(** ** The two fan-outs *)

Lemma session_send_inv w device_id content k v w' t :
  (k, v) ∈ connected_clients w →
  session_inv w device_id content w' t →
  ∃ w'' t', session_send device_id content k v w' = (Return tt, w'', t') ∧
            session_inv w device_id content w'' (t ++ t').
Proof.
  intros Hin (Hd & Hsame & Hev).
  rewrite session_send_spec. eexists _, _. split; [done|].
  unfold session_send_world, session_send_events, eligible. cbn [fst snd].
  destruct (bool_decide (k ≠ device_id)) eqn:Hk; cbn;
    [|rewrite app_nil_r; by split; [|split]].
  apply bool_decide_eq_true in Hk.
  destruct (is_connected v w') eqn:Hc; cbn;
    [|rewrite app_nil_r; by split; [|split]].
  pose proof (decay_connected w w' v Hd Hc) as Hc0.
  destruct (send_ok v w') eqn:Hok; cbn.
  - split; [done|]. split; [done|]. apply Forall_app. split; [done|].
    repeat constructor; cbn; eauto.
  - split; [by apply decay_disconnect|]. split; [done|].
    apply Forall_app. split; [done|].
    repeat constructor; cbn; eauto.
Qed.

(** The fan-out of a session never raises; it changes nothing but the
    state of the sockets whose send failed. *)
Lemma session_broadcast_inv device_id content w :
  session_inv w device_id content
    (final (session_broadcast device_id content w))
    (events (session_broadcast device_id content w)) ∧
  outcome (session_broadcast device_id content w) = Return tt.
Proof.
  unfold session_broadcast. rewrite for_connected_clients_unfold.
  destruct (for_items_rule (session_inv w device_id content)
              (session_send device_id content)
              (length (connected_clients w)) (connected_clients w)
              (λ k v w' t Hin HI _, session_send_inv w device_id content k v w' t Hin HI)
              w []) as (HI & _ & Hret).
  { split; [apply sockets_decay_refl|]. by repeat split. }
  split; [exact HI|]. apply Hret.
  destruct HI as (_ & (-> & _) & _). done.
Qed.

Lemma session_event_fanout w device_id content t :
  Forall (session_event w device_id content) t → Forall (fanout_event w) t.
Proof. intros H. eapply Forall_impl; [exact H|]. by intros e [? _]. Qed.

Lemma session_broadcast_fanout device_id content w :
  Forall (fanout_event w) (events (session_broadcast device_id content w)).
Proof.
  destruct (session_broadcast_inv device_id content w) as [(_ & _ & Hev) _].
  by apply session_event_fanout in Hev.
Qed.

(** The fan-out of the poller leaves the world as it is when no send
    raises. *)
Lemma monitor_broadcast_all_ok (content : string) w :
  (∀ k v, (k, v) ∈ connected_clients w →
          is_connected v w = true → send_ok v w = true) →
  monitor_broadcast content w =
    (Return tt, w,
     flat_map (λ kv, monitor_send_events content w kv.1 kv.2)
              (connected_clients w)).
Proof.
  intros Hok. unfold monitor_broadcast. rewrite for_connected_clients_unfold.
  rewrite (for_items_pure _ (monitor_send_events content w)); [done|].
  intros k v Hin. rewrite monitor_send_spec. unfold monitor_send_events.
  destruct (is_connected v w) eqn:Hc; [|done].
  by rewrite (Hok k v).
Qed.

Section monitor_broadcast.
Variables (content : string) (w : world).

Lemma monitor_send_inv k v w' t :
  (k, v) ∈ connected_clients w → monitor_inv w w' t →
  ∃ w'' t', monitor_send content k v w' = (Return tt, w'', t') ∧
            monitor_inv w w'' (t ++ t').
Proof.
  intros Hin (Hd & Hl & Hc & Hcr & Hpr & Hsub & Hev & Hwf' & Hkeep).
  rewrite monitor_send_spec.
  destruct (is_connected v w') eqn:Hconn';
    [|eexists _, _; split; [done|]; rewrite app_nil_r; by repeat split].
  pose proof (decay_connected w w' v Hd Hconn') as Hconn.
  destruct (send_ok v w') eqn:Hok; eexists _, _; (split; [done|]).
  - repeat split; try done.
    apply Forall_app. split; [done|].
    repeat constructor; simpl; eauto.
  - split; [by apply decay_disconnect|].
    repeat split; try done; simpl.
    + etrans; [apply dict_pop_subseteq|done].
    + apply Forall_app. split; [done|].
      repeat constructor; simpl; eauto.
    + intros Hwf. apply dict_pop_wf. by apply Hwf'.
    + intros Hwf k' v' Hin' Hconn0. apply dict_pop_other; [|by apply Hkeep].
      intros ->. rewrite (dict_wf_functional _ _ _ _ Hwf Hin Hin') in Hconn.
      congruence.
Qed.

Lemma monitor_broadcast_inv :
  monitor_inv w (final (monitor_broadcast content w))
              (events (monitor_broadcast content w)) ∧
  (outcome (monitor_broadcast content w) = Return tt ∨
   outcome (monitor_broadcast content w) = Raise RuntimeError).
Proof.
  unfold monitor_broadcast. rewrite for_connected_clients_unfold.
  destruct (for_items_rule (monitor_inv w) (monitor_send content)
              (length (connected_clients w)) (connected_clients w)
              (λ k v w' t Hin HI _, monitor_send_inv k v w' t Hin HI)
              w []) as (HI & Hout & _); [|done].
  split; [apply sockets_decay_refl|]. by repeat split.
Qed.
End monitor_broadcast.

(** ** The gated blocks *)

(** The world after an accepted update of a session: the backend is
    written, [last_clipboard] assigned, and the fan-out has run. *)
Lemma session_apply_and_broadcast_spec device_id content w :
  session_apply_and_broadcast device_id content w =
    if is_new content w then
      match accepted content w with
      | Some s =>
          (Return tt,
           final (session_broadcast device_id content
                    (set_last_clipboard s (set_clipboard (py_str s) w))),
           Copy content true :: Log INFO (ReceivedClipboardUpdate device_id) ::
           events (session_broadcast device_id content
                     (set_last_clipboard s (set_clipboard (py_str s) w))))
      | None => (Raise PyperclipException, w, [Copy content false])
      end
    else (Return tt, w, []).
Proof.
  unfold session_apply_and_broadcast. monad.
  destruct (is_new content w); [|done].
  rewrite copy_spec. destruct (accepted content w) as [s|]; [|done]. monad.
  destruct (session_broadcast_inv device_id content
              (set_last_clipboard s (set_clipboard (py_str s) w))) as [_ Hout].
  destruct (session_broadcast _ _ _) as [[r w2] t2]. cbn in *. by subst r.
Qed.

Lemma fallback_update_spec content r w :
  fallback_update content r w =
    if is_new content w then
      match accepted content w with
      | Some s =>
          (Return tt, set_last_clipboard s (set_clipboard (py_str s) w),
           [Copy content true; Log INFO r])
      | None => (Raise PyperclipException, w, [Copy content false])
      end
    else (Return tt, w, []).
Proof.
  unfold fallback_update. monad.
  destruct (is_new content w); [|done].
  rewrite copy_spec. by destruct (accepted content w) as [s|].
Qed.

Lemma monitor_apply_and_broadcast_spec (content : string) w :
  monitor_apply_and_broadcast content w =
    if is_new content w
    then monitor_broadcast content (set_last_clipboard content w)
    else (Return tt, w, []).
Proof.
  unfold monitor_apply_and_broadcast. monad.
  destruct (is_new content w); [|done].
  by destruct (monitor_broadcast content _) as [[r w2] t2].
Qed.

Lemma monitor_apply_last_clipboard (content : string) w :
  last_clipboard (final (monitor_apply_and_broadcast content w)) =
    if is_new content w then SStr content else last_clipboard w.
Proof.
  rewrite monitor_apply_and_broadcast_spec.
  destruct (is_new content w); [|done].
  destruct (monitor_broadcast_inv content (set_last_clipboard content w))
    as [(_ & -> & _) _]. done.
Qed.

Lemma accepted_scalar content w s : accepted content w = Some s → content = Scalar s.
Proof.
  destruct content as [s0| | |]; cbn; try done.
  destruct (copy_raises w); [done|]. by intros [= ->].
Qed.

(** After an accepted update of a session [last_clipboard] holds the
    value and the clipboard its text. *)
Lemma session_apply_and_broadcast_adopts device_id content w s :
  is_new content w = true → accepted content w = Some s →
  same_but_sockets (set_last_clipboard s (set_clipboard (py_str s) w))
    (final (session_apply_and_broadcast device_id content w)) ∧
  sockets_decay w (final (session_apply_and_broadcast device_id content w)).
Proof.
  intros Hnew Hacc. rewrite session_apply_and_broadcast_spec, Hnew, Hacc.
  destruct (session_broadcast_inv device_id content
              (set_last_clipboard s (set_clipboard (py_str s) w)))
    as [(Hd & Hsame & _) _].
  done.
Qed.

(** C5, as the code has it.  A call of the gated block (of a session,
    lines 76-91, or of the poller, lines 133-148) with a value that the gate
    refuses, false or equal to [last_clipboard], is a no-op: the world is
    unchanged and nothing is emitted.  After a call that went through, a
    second call with the same value, from any origin, is such a no-op: after
    a session call that returned, for every value but the float
    not-a-number (which differs from itself), and after every call of the
    poller.  A call of a session that did not go through (the backend write
    raised) has sent nothing and has not assigned [last_clipboard]. *)
Theorem no_redundant_broadcast (w : world) (device_id : string)
    (content : pyvalue) (text : string) :
  (is_new content w = false →
     session_apply_and_broadcast device_id content w = (Return tt, w, [])) ∧
  (is_new text w = false →
     monitor_apply_and_broadcast text w = (Return tt, w, [])) ∧
  (content ≠ nan →
   outcome (session_apply_and_broadcast device_id content w) = Return tt →
   ∀ origin,
     session_apply_and_broadcast origin content
       (final (session_apply_and_broadcast device_id content w)) =
       (Return tt, final (session_apply_and_broadcast device_id content w), [])) ∧
  (outcome (session_apply_and_broadcast device_id text w) = Return tt →
   monitor_apply_and_broadcast text
     (final (session_apply_and_broadcast device_id text w)) =
     (Return tt, final (session_apply_and_broadcast device_id text w), [])) ∧
  (∀ origin,
     session_apply_and_broadcast origin text
       (final (monitor_apply_and_broadcast text w)) =
       (Return tt, final (monitor_apply_and_broadcast text w), []) ∧
     monitor_apply_and_broadcast text
       (final (monitor_apply_and_broadcast text w)) =
       (Return tt, final (monitor_apply_and_broadcast text w), [])) ∧
  (outcome (session_apply_and_broadcast device_id content w) ≠ Return tt →
     no_send (events (session_apply_and_broadcast device_id content w)) ∧
     final (session_apply_and_broadcast device_id content w) = w).
Proof.
  assert (Hnoop : ∀ w0 origin (v : pyvalue), is_new v w0 = false →
            session_apply_and_broadcast origin v w0 = (Return tt, w0, [])).
  { intros w0 origin v H. by rewrite session_apply_and_broadcast_spec, H. }
  assert (Hnoop' : ∀ w0 (v : string), is_new v w0 = false →
            monitor_apply_and_broadcast v w0 = (Return tt, w0, [])).
  { intros w0 v H. by rewrite monitor_apply_and_broadcast_spec, H. }
  assert (Hafter : ∀ (v : pyvalue), v ≠ nan →
            outcome (session_apply_and_broadcast device_id v w) = Return tt →
            is_new v (final (session_apply_and_broadcast device_id v w)) = false).
  { intros v Hnan Hout.
    destruct (is_new v w) eqn:Hnew;
      [|by rewrite session_apply_and_broadcast_spec, Hnew].
    destruct (accepted v w) as [s|] eqn:Hacc;
      [|by rewrite session_apply_and_broadcast_spec, Hnew, Hacc in Hout].
    destruct (session_apply_and_broadcast_adopts device_id v w s Hnew Hacc)
      as [(_ & Hlast & _) _].
    apply accepted_scalar in Hacc as ->.
    apply is_new_after; [|done]. intros ->. by apply Hnan. }
  assert (Hafter' :
            is_new text (final (monitor_apply_and_broadcast text w)) = false).
  { destruct (is_new text w) eqn:Hnew.
    - apply is_new_after; [done|].
      by rewrite monitor_apply_last_clipboard, Hnew.
    - by rewrite (Hnoop' w text Hnew). }
  split_and!.
  - apply Hnoop.
  - apply Hnoop'.
  - intros Hnan Hout origin. by apply Hnoop, Hafter.
  - intros Hout. by apply Hnoop', (Hafter text).
  - intros origin. split; [by apply Hnoop|by apply Hnoop'].
  - rewrite session_apply_and_broadcast_spec.
    destruct (is_new content w); [|done].
    destruct (accepted content w); [done|].
    intros _. split; [|done]. no_send_in_list.
Qed.

Lemma no_redundant_broadcast_witness :
  JString "hello" ≠ nan ∧
  outcome (session_apply_and_broadcast "d1" "hello" two_clients) = Return tt ∧
  session_apply_and_broadcast "d2" "hello"
    (final (session_apply_and_broadcast "d1" "hello" two_clients)) =
    (Return tt, final (session_apply_and_broadcast "d1" "hello" two_clients), []).
Proof.
  assert (Hnan : JString "hello" ≠ nan) by discriminate.
  destruct (no_redundant_broadcast two_clients "d1" "hello" "hello")
    as (_ & _ & Hsecond & _).
  split; [exact Hnan|]. split; [reflexivity|].
  apply (Hsecond Hnan eq_refl "d2").
Defined.

(** C5 as stated fails.  With d1 and d2 registered and a backend whose
    write raises, d1 submits the new text [hello]: the call raises before
    [last_clipboard] is assigned, and the next call with [hello], by the
    poller, is no no-op: it assigns [last_clipboard] and sends to d1 and
    d2.  And with a backend that works, d1 submits the float not-a-number
    twice in a row: both calls go through the gate and both send to d2. *)
Lemma second_call_is_no_noop :
  outcome (session_apply_and_broadcast "d1" "hello"
             (set_backend true false two_clients)) = Raise PyperclipException ∧
  sends_of (events (monitor_apply_and_broadcast "hello"
                      (final (session_apply_and_broadcast "d1" "hello"
                                (set_backend true false two_clients))))) =
    [(1, clipboard_update "hello" "desktop", true);
     (2, clipboard_update "hello" "desktop", true)] ∧
  outcome (session_apply_and_broadcast "d1" nan two_clients) = Return tt ∧
  sends_of (events (session_apply_and_broadcast "d1" nan two_clients)) =
    [(2, clipboard_update nan "d1", true)] ∧
  sends_of (events (session_apply_and_broadcast "d1" nan
                      (final (session_apply_and_broadcast "d1" nan two_clients)))) =
    [(2, clipboard_update nan "d1", true)].
Proof. repeat split; reflexivity. Qed.

(** ** One turn of the receive loop *)

Lemma session_turn_spec websocket device_id r w :
  session_turn websocket device_id r w =
    match (match r with
           | Text p => handle_text websocket device_id p
           | ReceiveRaises e => raise e
           end) w with
    | (Return _, w1, t1) => (Return true, w1, t1)
    | (Raise e, w1, t1) =>
        (Return false,
         set_connected_clients (dict_pop device_id (connected_clients w1)) w1,
         t1 ++ [cleanup_event device_id e])
    end.
Proof.
  unfold session_turn, session_cleanup. monad.
  destruct r as [p|e]; monad; [|by destruct e].
  destruct (handle_text websocket device_id p w) as [[[[]|e] w1] t1];
    [by rewrite app_nil_r|].
  by destruct e.
Qed.

Lemma handle_text_tagged websocket device_id content w :
  handle_text websocket device_id
    (JsonObject (Some "clipboard_update") (Some content)) w =
    match session_apply_and_broadcast device_id content w with
    | (Return _, w1, t1) =>
        if send_ok websocket w1
        then (Return tt, w1, t1 ++ [SendJson websocket acknowledgment true])
        else (Raise (send_error websocket w1), send_failed websocket w1,
              t1 ++ [SendJson websocket acknowledgment false])
    | (Raise e, w1, t1) => (Raise e, w1, t1)
    end.
Proof.
  unfold handle_text.
  rewrite bool_decide_eq_false_2, bool_decide_eq_true_2 by done. monad.
  destruct (session_apply_and_broadcast device_id content w)
    as [[[[]|e] w1] t1]; [|done].
  rewrite send_json_spec. by destruct (send_ok websocket w1).
Qed.

Lemma handle_text_fallback websocket device_id p content w :
  fallback_text p = Some content →
  ∃ r, handle_text websocket device_id p w = fallback_update content r w.
Proof.
  destruct p as [data|type text|]; cbn; [|  |done].
  - intros [= <-]. eauto.
  - destruct (bool_decide (type = Some "pairing_request")); [done|].
    destruct (bool_decide (type = Some "clipboard_update")); [done|].
    intros ->. eauto.
Qed.

(** The gated block of a session leaves the outcome of a send on every
    socket as it was. *)
Lemma session_apply_and_broadcast_send_ok device_id content w ws :
  send_ok ws (final (session_apply_and_broadcast device_id content w)) =
    send_ok ws w.
Proof.
  rewrite session_apply_and_broadcast_spec.
  destruct (is_new content w); [|done].
  destruct (accepted content w) as [s|]; [|done].
  destruct (session_broadcast_inv device_id content
              (set_last_clipboard s (set_clipboard (py_str s) w)))
    as [(Hd & _) _].
  unfold final at 1. cbn [fst snd]. by rewrite (decay_send_ok _ _ ws Hd).
Qed.

(** C7, as the code has it.  A message tagged [clipboard_update] with a
    text is acknowledged whether its value is new or not, provided the
    backend write, when there is one, is accepted: the handler calls
    [send_json] with [{"status": "success", "message": "Clipboard updated"}]
    on the socket of the sender; when that send is delivered it is the last
    thing the turn does and the session goes on.  When the value is not new
    (false, or equal to [last_clipboard]) the acknowledgment is all the
    turn does: nothing is broadcast and the world is unchanged. *)
Theorem acknowledgment_regardless (w : world) (websocket : nat)
    (device_id : string) (content : pyvalue) :
  (is_new content w = true → accepted content w ≠ None) →
  SendJson websocket acknowledgment (send_ok websocket w) ∈
    events (session_turn websocket device_id (tagged_update content) w) ∧
  (send_ok websocket w = true →
     outcome (session_turn websocket device_id (tagged_update content) w) =
       Return true ∧
     last (events (session_turn websocket device_id (tagged_update content) w)) =
       Some (SendJson websocket acknowledgment true)) ∧
  (is_new content w = false → send_ok websocket w = true →
     session_turn websocket device_id (tagged_update content) w =
       (Return true, w, [SendJson websocket acknowledgment true])).
Proof.
  intros Hbackend. unfold tagged_update.
  rewrite session_turn_spec, handle_text_tagged.
  pose proof (session_apply_and_broadcast_send_ok device_id content w websocket)
    as Hsame.
  rewrite session_apply_and_broadcast_spec in *.
  destruct (is_new content w) eqn:Hnew.
  - destruct (accepted content w) as [s|]; [|by destruct Hbackend].
    cbn in Hsame. rewrite Hsame.
    destruct (send_ok websocket w) eqn:Hok; cbn.
    + split; [|split; [|done]].
      * do 2 right. apply elem_of_app. right. by left.
      * intros _. split; [done|].
        by rewrite !app_comm_cons, last_snoc.
    + split; [|split; done].
      do 2 right. rewrite <-app_assoc. apply elem_of_app. right. by left.
  - destruct (send_ok websocket w) eqn:Hok; cbn.
    + repeat split; try done. by left.
    + split; [by left|]. split; done.
Qed.

Lemma acknowledgment_regardless_witness :
  (is_new "hello" (set_last_clipboard "hello" two_clients) = true →
   accepted "hello" (set_last_clipboard "hello" two_clients) ≠ None) ∧
  session_turn 1 "d1" (tagged_update "hello")
    (set_last_clipboard "hello" two_clients) =
    (Return true, set_last_clipboard "hello" two_clients,
     [SendJson 1 acknowledgment true]).
Proof.
  assert (Hbackend :
    is_new "hello" (set_last_clipboard "hello" two_clients) = true →
    accepted "hello" (set_last_clipboard "hello" two_clients) ≠ None)
    by (intros _; discriminate).
  destruct (acknowledgment_regardless
              (set_last_clipboard "hello" two_clients) 1 "d1" "hello" Hbackend)
    as (_ & _ & Hsame).
  split; [exact Hbackend|]. apply Hsame; reflexivity.
Defined.

(** C7 as stated fails: d1 and d2 are registered and connected, the
    backend write raises, and d1 sends a tagged update with the new text
    [hello]; the session ends on the exception of the write and d1 is sent
    no acknowledgment. *)
Lemma no_acknowledgment_after_failed_write :
  is_new "hello" (set_backend true false two_clients) = true ∧
  send_ok 1 (set_backend true false two_clients) = true ∧
  ¬ (∃ delivered,
       SendJson 1 acknowledgment delivered ∈
         events (session_turn 1 "d1" (tagged_update "hello")
                   (set_backend true false two_clients))).
Proof.
  split; [reflexivity|]. split; [reflexivity|].
  intros [d Hin]. vm_compute in Hin. not_in_list Hin.
Qed.

(** ** The fallbacks (C2) *)

(** C2, as the code has it.  A payload that is not a tagged update (and no
    pairing request) but carries a text, a JSON object with a text field or
    a text that is no JSON, is adopted locally only: the turn calls
    [send_json] on no socket, neither for a fan-out nor for an
    acknowledgment.  When the text is new (true and different from
    [last_clipboard]) and the backend accepts it, the turn writes the text
    to the clipboard backend, assigns it to [last_clipboard], logs one
    record and the session goes on; when the text is not new the turn does
    nothing. *)
Theorem fallback_adopts_locally (w : world) (websocket : nat)
    (device_id : string) (p : payload) (content : pyvalue) :
  fallback_text p = Some content →
  no_send (events (session_turn websocket device_id (Text p) w)) ∧
  (is_new content w = true →
   ∀ s, accepted content w = Some s →
     ∃ r, session_turn websocket device_id (Text p) w =
            (Return true,
             set_last_clipboard s (set_clipboard (py_str s) w),
             [Copy content true; Log INFO r])) ∧
  (is_new content w = false →
     session_turn websocket device_id (Text p) w = (Return true, w, [])).
Proof.
  intros Hp. rewrite session_turn_spec.
  destruct (handle_text_fallback websocket device_id p content w Hp) as [r ->].
  rewrite fallback_update_spec.
  destruct (is_new content w); [destruct (accepted content w) as [s|]|]; cbn.
  - split; [no_send_in_list|]. split; [|done].
    intros _ ? [= <-]. eauto.
  - split; [no_send_in_list|]. split; done.
  - split; [no_send_in_list|]. split; done.
Qed.

Lemma fallback_adopts_locally_witness :
  fallback_text (NotJson "hello") = Some (JString "hello") ∧
  no_send (events (session_turn 1 "d1" (Text (NotJson "hello")) two_clients)).
Proof.
  split; [reflexivity|].
  apply (fallback_adopts_locally two_clients 1 "d1" (NotJson "hello") "hello").
  reflexivity.
Defined.

(** C2 as stated fails: with d1 and d2 registered and connected, d1 sends
    the raw text [hello], or the JSON object [{"text": "hello"}]; the text
    is new and is adopted, but d2 is sent nothing. *)
Lemma fallback_does_not_broadcast :
  is_new "hello" two_clients = true ∧
  ("d2", 2) ∈ connected_clients two_clients ∧
  is_connected 2 two_clients = true ∧
  (∀ p, p = NotJson "hello" ∨ p = JsonObject None (Some (JString "hello")) →
     last_clipboard (final (session_turn 1 "d1" (Text p) two_clients)) = "hello" ∧
     ¬ (∃ delivered,
          SendJson 2 (clipboard_update "hello" "d1") delivered ∈
            events (session_turn 1 "d1" (Text p) two_clients))).
Proof.
  split; [reflexivity|]. split; [set_solver|]. split; [reflexivity|].
  intros p [-> | ->]; (split; [reflexivity|]); intros [d Hin];
    vm_compute in Hin; not_in_list Hin.
Qed.

(** ** A failing backend write (C4) *)

Lemma handle_text_update websocket device_id p content w :
  update_text p = Some content →
  is_new content w = true → accepted content w = None →
  handle_text websocket device_id p w =
    (Raise PyperclipException, w, [Copy content false]).
Proof.
  intros Hp Hnew Hcopy.
  destruct p as [data|type text|]; cbn in *; [| |done].
  - injection Hp as <-. by rewrite fallback_update_spec, Hnew, Hcopy.
  - destruct (bool_decide (type = Some "pairing_request")); [done|].
    subst text. monad.
    destruct (bool_decide (type = Some "clipboard_update")).
    + monad. by rewrite session_apply_and_broadcast_spec, Hnew, Hcopy.
    + by rewrite fallback_update_spec, Hnew, Hcopy.
Qed.

Lemma copy_raises_accepted content w :
  copy_raises w = true → accepted content w = None.
Proof. intros H. destruct content; cbn; by rewrite ?H. Qed.

(** C4, as the code has it.  When the backend write of a new value raises
    in a session (in the tagged update or in one of the two fallbacks), the
    exception reaches the handler of line 116: it is logged and the session
    ends.  [last_clipboard] is not assigned, nothing is sent, neither to the
    other connections nor to the sender, and the connection of the sender is
    removed from the dictionary; nothing else changes. *)
Theorem backend_write_failure_ends_session (w : world) (websocket : nat)
    (device_id : string) (p : payload) (content : pyvalue) :
  update_text p = Some content →
  is_new content w = true →
  copy_raises w = true →
  session_turn websocket device_id (Text p) w =
    (Return false,
     set_connected_clients (dict_pop device_id (connected_clients w)) w,
     [Copy content false; Log ERROR (ErrorWithDevice device_id PyperclipException)]).
Proof.
  intros Hp Hnew Hcopy.
  rewrite session_turn_spec, (handle_text_update _ _ _ content); try done.
  by apply copy_raises_accepted.
Qed.

Lemma backend_write_failure_ends_session_witness :
  is_new "hello" (set_backend true false two_clients) = true ∧
  copy_raises (set_backend true false two_clients) = true ∧
  session_turn 1 "d1" (tagged_update "hello")
    (set_backend true false two_clients) =
    (Return false,
     set_connected_clients [("d2", 2)] (set_backend true false two_clients),
     [Copy "hello" false; Log ERROR (ErrorWithDevice "d1" PyperclipException)]).
Proof.
  split; [reflexivity|]. split; [reflexivity|].
  apply (backend_write_failure_ends_session
           (set_backend true false two_clients) 1 "d1"
           (JsonObject (Some "clipboard_update") (Some (JString "hello"))) "hello");
    reflexivity.
Defined.

(** C4 as stated fails: d1 and d2 are registered, the backend write raises
    and d1 sends the new text [hello]; [last_clipboard] is not updated, d2
    is sent nothing and the session of d1 has ended. *)
Lemma backend_write_failure_is_fatal :
  is_new "hello" (set_backend true false two_clients) = true ∧
  ¬ (last_clipboard
       (final (session_turn 1 "d1" (tagged_update "hello")
                 (set_backend true false two_clients))) = "hello" ∨
     (∃ delivered,
        SendJson 2 (clipboard_update "hello" "d1") delivered ∈
          events (session_turn 1 "d1" (tagged_update "hello")
                    (set_backend true false two_clients))) ∨
     outcome (session_turn 1 "d1" (tagged_update "hello")
                (set_backend true false two_clients)) = Return true).
Proof.
  split; [reflexivity|].
  intros [H|[[d H]|H]]; vm_compute in H; try discriminate H.
  not_in_list H.
Qed.

(** ** Who is sent what (C6, C10) *)

Lemma elem_of_flat_map {A B} (f : A → list B) (l : list A) (y : B) :
  y ∈ flat_map f l ↔ ∃ x, x ∈ l ∧ y ∈ f x.
Proof.
  rewrite list_elem_of_In, in_flat_map.
  split; intros (x & Hx & Hy); exists x; by rewrite ?list_elem_of_In in *.
Qed.

Lemma sockets_distinct_functional (d : dict) k1 k2 v :
  sockets_distinct d → (k1, v) ∈ d → (k2, v) ∈ d → k1 = k2.
Proof.
  unfold sockets_distinct.
  induction d as [|[k' v'] d IH]; simpl; [by intros _ ?%elem_of_nil|].
  intros [Hnotin Hnd]%NoDup_cons H1 H2.
  apply elem_of_cons in H1 as [H1|H1]; apply elem_of_cons in H2 as [H2|H2].
  - congruence.
  - inversion H1; subst. exfalso. apply Hnotin.
    apply (list_elem_of_fmap_2 snd) in H2. done.
  - inversion H2; subst. exfalso. apply Hnotin.
    apply (list_elem_of_fmap_2 snd) in H1. done.
  - by apply IH.
Qed.

(** Events that stem from CONNECTED registered sockets say nothing about
    a registered socket that is not CONNECTED. *)
Lemma fanout_events_skip (w : world) (t : list event) client_id ws :
  dict_wf (connected_clients w) →
  Forall (fanout_event w) t →
  (client_id, ws) ∈ connected_clients w →
  is_connected ws w = false →
  no_send_to ws t ∧ no_error_for client_id t.
Proof.
  intros Hwf Ht Hin Hconn. rewrite Forall_forall in Ht.
  assert (Hno : ∀ ws', (client_id, ws') ∈ connected_clients w →
                       is_connected ws' w = true → False).
  { intros ws' Hin' Hconn'.
    rewrite (dict_wf_functional _ _ _ _ Hwf Hin' Hin) in Hconn'. congruence. }
  split.
  - intros msg d He. apply Ht in He as [He _]. congruence.
  - intros l e. split; intros He; apply Ht in He as (ws' & Hin' & Hconn');
      eauto.
Qed.

(** C10.  Both fan-outs, the one of the session handler (lines 82-91) and
    the one of the poller (lines 137-148), call [send_json] only on sockets
    that are registered and whose [application_state] is CONNECTED.  A
    registered connection in another state is skipped silently: no
    [send_json] is called on its socket, no error is logged for its
    identifier, and it is still registered when the fan-out is left.  The
    dictionary is taken with unique keys, as a Python dict has them. *)
Theorem fanout_skips_unconnected (w : world) (device_id : string)
    (content : pyvalue) (text : string)
    (x : result unit * world * list event) :
  dict_wf (connected_clients w) →
  x = session_broadcast device_id content w ∨ x = monitor_broadcast text w →
  (∀ ws msg delivered, SendJson ws msg delivered ∈ events x →
     is_connected ws w = true ∧ ∃ k, (k, ws) ∈ connected_clients w) ∧
  (∀ client_id ws,
     (client_id, ws) ∈ connected_clients w → is_connected ws w = false →
     no_send_to ws (events x) ∧
     no_error_for client_id (events x) ∧
     (client_id, ws) ∈ connected_clients (final x)).
Proof.
  intros Hwf Hx.
  assert (Forall (fanout_event w) (events x) ∧
          ∀ k v, (k, v) ∈ connected_clients w → is_connected v w = false →
                 (k, v) ∈ connected_clients (final x)) as [Hev Hkeep].
  { destruct Hx as [-> | ->].
    - split; [apply session_broadcast_fanout|].
      destruct (session_broadcast_inv device_id content w)
        as [(_ & (-> & _) & _) _]. done.
    - destruct (monitor_broadcast_inv text w)
        as [(_ & _ & _ & _ & _ & _ & Hev & _ & Hkeep) _]. auto. }
  split.
  - intros ws msg d He. rewrite Forall_forall in Hev. by apply Hev in He.
  - intros client_id ws Hin Hconn.
    destruct (fanout_events_skip w (events x) client_id ws) as [? ?]; auto.
Qed.

Lemma fanout_skips_unconnected_witness :
  dict_wf (connected_clients one_gone) ∧
  no_send_to 1 (events (monitor_broadcast "world" one_gone)) ∧
  no_send_to 1 (events (session_broadcast "d2" "world" one_gone)) ∧
  ("d1", 1) ∈ connected_clients (final (monitor_broadcast "world" one_gone)).
Proof.
  assert (Hwf : dict_wf (connected_clients one_gone)).
  { unfold dict_wf. apply (bool_decide_unpack _). vm_compute. exact I. }
  assert (Hin : ("d1", 1) ∈ connected_clients one_gone) by (by left).
  destruct (fanout_skips_unconnected one_gone "d2" "world" "world" _ Hwf
              (or_intror eq_refl)) as [_ Hmonitor].
  destruct (fanout_skips_unconnected one_gone "d2" "world" "world" _ Hwf
              (or_introl eq_refl)) as [_ Hsession].
  destruct (Hmonitor "d1" 1 Hin eq_refl) as (Hm1 & _ & Hm3).
  destruct (Hsession "d1" 1 Hin eq_refl) as (Hs1 & _ & _).
  repeat split; assumption.
Defined.

(** C6, as the code has it.  The gated block of a session (lines 76-91)
    sends nothing but the update with the identifier of the origin as its
    source, and only to sockets registered under another identifier; so,
    each socket being registered once, never to the connection registered
    under the identifier of the origin.  The gated block of the poller
    (lines 133-148), whose source is ["desktop"], excludes no identifier:
    for a new value, when no send raises, every registered connection
    whose state is CONNECTED is delivered the update, also one registered
    under the identifier ["desktop"]. *)
Theorem no_self_echo (w : world) (device_id : string) (content : pyvalue)
    (text : string) :
  (∀ ws msg delivered,
     SendJson ws msg delivered ∈
       events (session_apply_and_broadcast device_id content w) →
     msg = clipboard_update content device_id ∧
     ∃ client_id, client_id ≠ device_id ∧ (client_id, ws) ∈ connected_clients w) ∧
  (sockets_distinct (connected_clients w) →
   ∀ origin_ws, (device_id, origin_ws) ∈ connected_clients w →
     no_send_to origin_ws
       (events (session_apply_and_broadcast device_id content w))) ∧
  (is_new text w = true →
   (∀ k v, (k, v) ∈ connected_clients w →
           is_connected v w = true → send_ok v w = true) →
   outcome (monitor_apply_and_broadcast text w) = Return tt ∧
   ∀ k v, (k, v) ∈ connected_clients w → is_connected v w = true →
     SendJson v (clipboard_update text "desktop") true ∈
       events (monitor_apply_and_broadcast text w)).
Proof.
  assert (Hsession : ∀ ws msg delivered,
     SendJson ws msg delivered ∈
       events (session_apply_and_broadcast device_id content w) →
     msg = clipboard_update content device_id ∧
     ∃ client_id, client_id ≠ device_id ∧ (client_id, ws) ∈ connected_clients w).
  { intros ws msg d. rewrite session_apply_and_broadcast_spec.
    destruct (is_new content w); [|by intros ?%elem_of_nil].
    destruct (accepted content w) as [s|]; cbn.
    - intros [?|[?|Hin]%elem_of_cons]%elem_of_cons; [done..|].
      destruct (session_broadcast_inv device_id content
                  (set_last_clipboard s (set_clipboard (py_str s) w)))
        as [(_ & _ & Hev) _].
      rewrite Forall_forall in Hev. by apply Hev in Hin as [_ ?].
    - intros Hin. not_in_list Hin. }
  split; [exact Hsession|]. split.
  - intros Hdistinct origin_ws Hin msg d Hsend.
    apply Hsession in Hsend as (_ & k & Hne & Hin').
    apply Hne. apply (sockets_distinct_functional _ _ _ _ Hdistinct Hin' Hin).
  - intros Hnew Hok. rewrite monitor_apply_and_broadcast_spec, Hnew.
    rewrite monitor_broadcast_all_ok by exact Hok.
    split; [done|]. intros k v Hin Hconn. cbn.
    apply elem_of_flat_map. exists (k, v). split; [done|].
    unfold monitor_send_events. cbn.
    change (is_connected v (set_last_clipboard text w)) with (is_connected v w).
    rewrite Hconn. by left.
Qed.

Lemma no_self_echo_witness :
  sockets_distinct (connected_clients two_clients) ∧
  no_send_to 1 (events (session_apply_and_broadcast "d1" "hello" two_clients)) ∧
  SendJson 2 (clipboard_update "hello" "desktop") true ∈
    events (monitor_apply_and_broadcast "hello" two_clients).
Proof.
  assert (Hd : sockets_distinct (connected_clients two_clients)).
  { unfold sockets_distinct. apply (bool_decide_unpack _). vm_compute. exact I. }
  destruct (no_self_echo two_clients "d1" "hello" "hello")
    as (_ & Hsession & Hmonitor).
  split; [exact Hd|]. split.
  - apply (Hsession Hd 1). by left.
  - destruct Hmonitor as [_ Hall]; [reflexivity| |].
    + intros k v Hin _.
      apply elem_of_cons in Hin as [[= -> ->]|Hin]; [reflexivity|].
      apply list_elem_of_singleton in Hin as [= -> ->]. reflexivity.
    + apply (Hall "d2" 2); [by right; left|reflexivity].
Defined.

(** C6 as stated fails: d1 is registered but its socket is no longer
    CONNECTED; the poller accepts the new value [world] and d1 is sent
    nothing. *)
Lemma poller_skips_unconnected :
  is_new "world" one_gone = true ∧
  ("d1", 1) ∈ connected_clients one_gone ∧
  ¬ (∀ k v, (k, v) ∈ connected_clients one_gone →
       ∃ delivered,
         SendJson v (clipboard_update "world" "desktop") delivered ∈
           events (monitor_apply_and_broadcast "world" one_gone)).
Proof.
  split; [reflexivity|]. split; [by left|].
  intros H. destruct (H "d1" 1) as [d Hin]; [by left|].
  vm_compute in Hin. not_in_list Hin.
Qed.

(** ** The poller (C8) *)

Lemma monitor_body_spec w :
  monitor_body w =
    if paste_raises w then (Raise PyperclipException, w, [])
    else monitor_apply_and_broadcast (clipboard w) w.
Proof.
  unfold monitor_body, paste. monad.
  destruct (paste_raises w); [done|]. monad.
  by destruct (monitor_apply_and_broadcast (clipboard w) w) as [[r w2] t2].
Qed.

Lemma monitor_turn_spec w :
  monitor_turn w =
    match monitor_body w with
    | (Return _, w1, t1) => (Return tt, w1, t1 ++ [Sleep 1])
    | (Raise e, w1, t1) =>
        (Return tt, w1, (t1 ++ [Log ERROR (ClipboardMonitorError e)]) ++ [Sleep 1])
    end.
Proof.
  unfold monitor_turn. monad.
  by destruct (monitor_body w) as [[[[]|e] w1] t1].
Qed.

Lemma sleeps_app t1 t2 : sleeps (t1 ++ t2) = sleeps t1 + sleeps t2.
Proof.
  induction t1 as [|e t1 IH]; [done|]. destruct e; simpl; by rewrite ?IH.
Qed.

Lemma fanout_no_sleep w t : Forall (fanout_event w) t → sleeps t = 0.
Proof.
  induction 1 as [|e t He _ IH]; [done|]. by destruct e.
Qed.

Lemma monitor_body_no_sleep w : sleeps (events (monitor_body w)) = 0.
Proof.
  rewrite monitor_body_spec. destruct (paste_raises w); [done|].
  rewrite monitor_apply_and_broadcast_spec.
  destruct (is_new (clipboard w) w); [|done].
  destruct (monitor_broadcast_inv (clipboard w)
              (set_last_clipboard (clipboard w) w))
    as [(_ & _ & _ & _ & _ & _ & Hev & _) _].
  by apply fanout_no_sleep in Hev.
Qed.

Lemma monitor_turn_returns w :
  outcome (monitor_turn w) = Return tt ∧ sleeps (events (monitor_turn w)) = 1.
Proof.
  rewrite monitor_turn_spec. pose proof (monitor_body_no_sleep w) as Hs.
  destruct (monitor_body w) as [[[[]|e] w1] t1]; cbn in *;
    rewrite !sleeps_app, Hs; done.
Qed.

(** C8.  The poller never ends on a failure.  Whatever the world, a turn of
    its loop returns normally and its last act is [asyncio.sleep(1)], the
    only sleep of the turn; when the protected part raises (the read of the
    clipboard backend, or the fan-out), the exception is logged just before
    that sleep.  In particular, after a read that raises the turn has logged
    the error, slept and changed nothing.  So the loop makes every turn it
    is given, whatever the environment does in between: with [n] turns
    ahead it sleeps [n] times and no exception leaves it. *)
Theorem monitor_never_ends :
  (∀ w, outcome (monitor_turn w) = Return tt ∧
        ∃ t, events (monitor_turn w) = t ++ [Sleep 1] ∧ sleeps t = 0 ∧
             ∀ e, outcome (monitor_body w) = Raise e →
                  final (monitor_turn w) = final (monitor_body w) ∧
                  t = events (monitor_body w) ++
                        [Log ERROR (ClipboardMonitorError e)]) ∧
  (∀ w, paste_raises w = true →
        monitor_turn w =
          (Return tt, w,
           [Log ERROR (ClipboardMonitorError PyperclipException); Sleep 1])) ∧
  (∀ envs w, outcome (monitor envs w) = Return tt ∧
             sleeps (events (monitor envs w)) = length envs).
Proof.
  split; [|split].
  - intros w. split; [apply monitor_turn_returns|].
    rewrite monitor_turn_spec. pose proof (monitor_body_no_sleep w) as Hs.
    destruct (monitor_body w) as [[[[]|e] w1] t1]; cbn in *.
    + exists t1. by repeat split.
    + eexists. split; [done|]. rewrite sleeps_app, Hs.
      split; [done|]. by intros ? [= ->].
  - intros w Hp. by rewrite monitor_turn_spec, monitor_body_spec, Hp.
  - induction envs as [|es envs IH]; intros w; [done|].
    cbn. monad.
    destruct (monitor_turn_returns (foldl (λ w e, env_step e w) w es))
      as [Hout Hs].
    destruct (monitor_turn _) as [[r w1] t1]. cbn in Hout, Hs. subst r.
    destruct (IH w1) as [Hout' Hs'].
    destruct (monitor envs w1) as [[r w2] t2]. cbn in *.
    by rewrite sleeps_app, Hs, Hs'.
Qed.

Lemma monitor_never_ends_witness :
  paste_raises (set_backend false true two_clients) = true ∧
  monitor_turn (set_backend false true two_clients) =
    (Return tt, set_backend false true two_clients,
     [Log ERROR (ClipboardMonitorError PyperclipException); Sleep 1]) ∧
  outcome (monitor [[BackendBecomes false true]; []; [UserCopies "hello"]]
             three_clients) = Return tt.
Proof.
  destruct monitor_never_ends as (_ & Hread & Hloop).
  split; [reflexivity|]. split.
  - apply Hread. reflexivity.
  - apply Hloop.
Defined.

(** ** [last_clipboard] (C9) *)

Lemma gated_refl w : gated w w.
Proof. by left. Qed.

Lemma gated_new (s : scalar) (w w' : world) :
  is_new s w = true → last_clipboard w' = s → gated w w'.
Proof. intros [? ?]%is_new_true Heq. right. by rewrite Heq. Qed.

(** What a payload assigns: [last_clipboard] is left as it is, or it is
    assigned the text of the payload, which passed the gate and which the
    backend accepted. *)
Lemma handle_text_last_clipboard websocket device_id p w :
  last_clipboard (final (handle_text websocket device_id p w)) =
    last_clipboard w ∨
  ∃ s : scalar,
    update_text p = Some (Scalar s) ∧ is_new s w = true ∧
    last_clipboard (final (handle_text websocket device_id p w)) = s.
Proof.
  assert (Hfallback : ∀ content r,
    last_clipboard (final (fallback_update content r w)) = last_clipboard w ∨
    ∃ s : scalar, content = Scalar s ∧ is_new s w = true ∧
                  last_clipboard (final (fallback_update content r w)) = s).
  { intros content r. rewrite fallback_update_spec.
    destruct (is_new content w) eqn:Hnew; [|by left].
    destruct (accepted content w) as [s|] eqn:Hacc; [|by left].
    apply accepted_scalar in Hacc as ->. right. by exists s. }
  destruct p as [data|type text|]; cbn.
  - destruct (Hfallback (JString data) (ReceivedPlainText device_id))
      as [?|(s & [= <-] & ? & ?)]; [by left|]. right. by exists (SStr data).
  - destruct (bool_decide (type = Some "pairing_request")).
    { left. monad. rewrite send_json_spec. unfold send_failed, disconnect.
      destruct (send_ok websocket w); [done|].
      by destruct (is_connected websocket w). }
    destruct text as [content|]; [|by left].
    destruct (bool_decide (type = Some "clipboard_update")).
    + monad.
      destruct (is_new content w) eqn:Hnew;
        [|left; rewrite session_apply_and_broadcast_spec, Hnew;
          rewrite send_json_spec; unfold send_failed, disconnect;
          destruct (send_ok websocket w); [done|];
          by destruct (is_connected websocket w)].
      destruct (accepted content w) as [s|] eqn:Hacc;
        [|left; by rewrite session_apply_and_broadcast_spec, Hnew, Hacc].
      destruct (session_apply_and_broadcast_adopts device_id content w s Hnew Hacc)
        as [(_ & Hlast & _) _].
      apply accepted_scalar in Hacc as ->. right. exists s.
      split; [done|]. split; [done|].
      destruct (session_apply_and_broadcast device_id (Scalar s) w)
        as [[[[]|e] w1] t1]; [|done].
      rewrite send_json_spec. unfold send_failed, disconnect.
      destruct (send_ok websocket w1); [done|].
      by destruct (is_connected websocket w1).
    + destruct (Hfallback content (ReceivedText device_id))
        as [?|(s & -> & ? & ?)]; [by left|]. right. by exists s.
  - by left.
Qed.

Lemma session_turn_last_clipboard websocket device_id r w :
  last_clipboard (final (session_turn websocket device_id r w)) =
    last_clipboard w ∨
  ∃ (p : payload) (s : scalar),
    r = Text p ∧ update_text p = Some (Scalar s) ∧ is_new s w = true ∧
    last_clipboard (final (session_turn websocket device_id r w)) = s.
Proof.
  rewrite session_turn_spec. destruct r as [p|e]; [|by left].
  pose proof (handle_text_last_clipboard websocket device_id p w) as Hh.
  destruct (handle_text websocket device_id p w) as [[[[]|e] w1] t1];
    (destruct Hh as [?|(s & ? & ? & ?)]; [by left|right; by exists p, s]).
Qed.

Lemma monitor_turn_last_clipboard w :
  last_clipboard (final (monitor_turn w)) = last_clipboard w ∨
  (is_new (clipboard w) w = true ∧
   last_clipboard (final (monitor_turn w)) = SStr (clipboard w)).
Proof.
  rewrite monitor_turn_spec.
  assert (Hb : last_clipboard (final (monitor_body w)) = last_clipboard w ∨
               (is_new (clipboard w) w = true ∧
                last_clipboard (final (monitor_body w)) = SStr (clipboard w))).
  { rewrite monitor_body_spec. destruct (paste_raises w); [by left|].
    rewrite monitor_apply_last_clipboard.
    destruct (is_new (clipboard w) w); [by right|by left]. }
  by destruct (monitor_body w) as [[[[]|e] w1] t1].
Qed.

Lemma close_spec ws w :
  close ws w =
    match sockets w !! ws with
    | Some s =>
        match application_state s with
        | DISCONNECTED => (Raise RuntimeError, w, [])
        | st =>
            if close_raises s
            then (Raise (match st with
                         | CONNECTED => WebSocketDisconnect
                         | _ => OSError
                         end), disconnect ws w, [])
            else (Return tt, disconnect ws w, [Close ws])
        end
    | None => (Raise RuntimeError, w, [])
    end.
Proof.
  unfold close. monad. destruct (sockets w !! ws) as [s|]; [|done].
  destruct (application_state s); cbn; try done; by destruct (close_raises s).
Qed.

Lemma accept_spec ws w :
  accept ws w =
    match sockets w !! ws with
    | Some s =>
        match application_state s with
        | CONNECTING =>
            (Return tt,
             set_sockets (alter (set_state CONNECTED) ws (sockets w)) w,
             [Accept ws])
        | _ => (Raise RuntimeError, w, [])
        end
    | None => (Raise RuntimeError, w, [])
    end.
Proof.
  unfold accept. monad. destruct (sockets w !! ws) as [s|]; [|done].
  by destruct (application_state s).
Qed.

(** Opening a connection, lines 39-46, in terms of [close] and [accept]. *)
Lemma session_open_spec websocket device_id w :
  session_open websocket device_id w =
    match dict_get device_id (connected_clients w) with
    | Some previous =>
        match close previous w with
        | (Return _, w1, t1) =>
            match accept websocket w1 with
            | (Return _, w2, t2) =>
                (Return tt,
                 set_connected_clients
                   (dict_set device_id websocket (connected_clients w2)) w2,
                 Log WARNING (AlreadyConnected device_id) :: t1 ++ t2 ++
                 [Log INFO (DeviceConnected device_id)])
            | (Raise e, w2, t2) =>
                (Raise e, w2, Log WARNING (AlreadyConnected device_id) :: t1 ++ t2)
            end
        | (Raise e, w1, t1) =>
            (Raise e, w1, Log WARNING (AlreadyConnected device_id) :: t1)
        end
    | None =>
        match accept websocket w with
        | (Return _, w2, t2) =>
            (Return tt,
             set_connected_clients
               (dict_set device_id websocket (connected_clients w2)) w2,
             t2 ++ [Log INFO (DeviceConnected device_id)])
        | (Raise e, w2, t2) => (Raise e, w2, t2)
        end
    end.
Proof.
  unfold session_open. monad.
  destruct (dict_get device_id (connected_clients w)) as [previous|]; monad.
  - destruct (close previous w) as [[[[]|e] w1] t1]; [|done].
    by destruct (accept websocket w1) as [[[[]|e] w2] t2].
  - by destruct (accept websocket w) as [[[[]|e] w2] t2].
Qed.

Lemma close_frame ws w :
  same_but_sockets w (final (close ws w)).
Proof.
  rewrite close_spec. destruct (sockets w !! ws) as [s|]; [|done].
  destruct (application_state s); try done; by destruct (close_raises s).
Qed.

Lemma accept_frame ws w :
  same_but_sockets w (final (accept ws w)).
Proof.
  rewrite accept_spec. destruct (sockets w !! ws) as [s|]; [|done].
  by destruct (application_state s).
Qed.

(** Opening a connection changes the sockets and, when it succeeds, the
    entry of the identifier; the rest of the world stays. *)
Lemma session_open_frame websocket device_id w :
  last_clipboard (final (session_open websocket device_id w)) = last_clipboard w ∧
  clipboard (final (session_open websocket device_id w)) = clipboard w ∧
  connected_clients (final (session_open websocket device_id w)) =
    match outcome (session_open websocket device_id w) with
    | Return _ => dict_set device_id websocket (connected_clients w)
    | Raise _ => connected_clients w
    end.
Proof.
  rewrite session_open_spec.
  destruct (dict_get device_id (connected_clients w)) as [previous|].
  - pose proof (close_frame previous w) as (Hc1 & Hl1 & Hb1 & _).
    destruct (close previous w) as [[[[]|e] w1] t1]; cbn in *; [|done].
    pose proof (accept_frame websocket w1) as (Hc2 & Hl2 & Hb2 & _).
    destruct (accept websocket w1) as [[[[]|e] w2] t2]; cbn in *;
      by rewrite ?Hc2, ?Hl2, ?Hb2, ?Hc1, ?Hl1, ?Hb1.
  - pose proof (accept_frame websocket w) as (Hc2 & Hl2 & Hb2 & _).
    destruct (accept websocket w) as [[[[]|e] w2] t2]; cbn in *;
      by rewrite ?Hc2, ?Hl2, ?Hb2.
Qed.

Lemma step_last_clipboard a w :
  last_clipboard (step a w).1 = last_clipboard w ∨
  ∃ s : scalar, is_new s w = true ∧ last_clipboard (step a w).1 = s ∧
    ((∃ ws id p, a = Turn ws id (Text p) ∧ update_text p = Some (Scalar s)) ∨
     (a = Tick ∧ s = SStr (clipboard w))).
Proof.
  destruct a as [ws id|ws id r| |e]; cbn.
  - left. apply session_open_frame.
  - destruct (session_turn_last_clipboard ws id r w)
      as [?|(p & s & -> & ? & ? & ?)]; [by left|].
    right. exists s. split; [done|]. split; [done|]. left. by exists ws, id, p.
  - destruct (monitor_turn_last_clipboard w) as [?|[? ?]]; [by left|].
    right. exists (SStr (clipboard w)). split; [done|]. split; [done|]. by right.
  - left. by destruct e.
Qed.

Lemma step_gated a w : gated w (step a w).1.
Proof.
  destruct (step_last_clipboard a w) as [?|(s & Hnew & Hlast & _)]; [by left|].
  by apply (gated_new s).
Qed.

Lemma step_holds_str a w :
  brings_str a → holds_str w → holds_str (step a w).1.
Proof.
  intros Ha [s0 Hs0]. unfold holds_str.
  destruct (step_last_clipboard a w) as [Heq|(s & _ & Heq & Hsite)];
    rewrite Heq; [by exists s0|]. clear Heq.
  destruct Hsite as [(ws & id & p & -> & Hp)|[_ ->]]; [|by eexists].
  destruct p as [data|type [v|]|]; cbn in *.
  - injection Hp as <-. by eexists.
  - destruct Ha as [s' ->].
    destruct (bool_decide (type = Some "pairing_request")); [done|].
    injection Hp as <-. by eexists.
  - by destruct (bool_decide (type = Some "pairing_request")).
  - done.
Qed.

Lemma run_cons a acts w : (run (a :: acts) w).1 = (run acts (step a w).1).1.
Proof.
  change (run (a :: acts) w)
    with (let '(w1, t1) := step a w in
          let '(w2, t2) := run acts w1 in (w2, t1 ++ t2)).
  destruct (step a w) as [w1 t1]. cbn. by destruct (run acts w1) as [w2 t2].
Qed.

Lemma run_app acts1 acts2 w :
  (run (acts1 ++ acts2) w).1 = (run acts2 (run acts1 w).1).1.
Proof.
  revert w. induction acts1 as [|a acts1 IH]; intros w; [done|].
  by rewrite <-app_comm_cons, !run_cons, IH.
Qed.

Lemma run_stays_true acts w :
  py_truthy (last_clipboard w) = true →
  py_truthy (last_clipboard (run acts w).1) = true.
Proof.
  revert w. induction acts as [|a acts IH]; intros w Hw; [done|].
  rewrite run_cons. apply IH.
  destruct (step_gated a w) as [-> | [? _]]; done.
Qed.

Lemma run_empty_or_true acts :
  last_clipboard (run acts initial_world).1 = SStr "" ∨
  py_truthy (last_clipboard (run acts initial_world).1) = true.
Proof.
  induction acts as [|a acts IH] using rev_ind; [by left|].
  rewrite run_app, run_cons. cbn [run fst].
  destruct (step_gated a (run acts initial_world).1) as [-> | [? _]];
    [done|by right].
Qed.

Lemma run_holds_str acts w :
  Forall brings_str acts → holds_str w → holds_str (run acts w).1.
Proof.
  revert w. induction acts as [|a acts IH]; intros w Hacts Hw; [done|].
  apply Forall_cons in Hacts as [Ha Hacts].
  rewrite run_cons. apply IH; [done|]. by apply step_holds_str.
Qed.

(** C9, as the code has it.  [last_clipboard] is the empty string when the
    process starts.  Every step of the server, a connection being opened, a
    turn of a receive loop on whatever it receives (tagged update, untagged
    fallback, text that is no JSON, anything else), a turn of the poller, a
    move of the environment, leaves [last_clipboard] as it is or assigns it
    a value that is true and that [!=] tells from the one it held.  Hence,
    once it is true it never is false again, and in a run from the start it
    is the empty string up to the first step that assigns it and true ever
    after.  The value is a string, then a non-empty one, as long as the
    texts that arrive are strings, which those of the poller and of the
    fallback for texts that are no JSON always are. *)
Theorem last_clipboard_gate :
  last_clipboard initial_world = SStr "" ∧
  (∀ a w, last_clipboard (step a w).1 = last_clipboard w ∨
          (py_truthy (last_clipboard (step a w).1) = true ∧
           py_ne (last_clipboard (step a w).1) (last_clipboard w) = true)) ∧
  (∀ acts w, py_truthy (last_clipboard w) = true →
             py_truthy (last_clipboard (run acts w).1) = true) ∧
  (∀ before a after,
     last_clipboard (step a (run before initial_world).1).1 ≠
       last_clipboard (run before initial_world).1 →
     py_truthy (last_clipboard (run (before ++ a :: after) initial_world).1) =
       true) ∧
  (∀ before after,
     py_truthy (last_clipboard (run (before ++ after) initial_world).1) = false →
     last_clipboard (run before initial_world).1 = SStr "") ∧
  (∀ a w, brings_str a → holds_str w → holds_str (step a w).1) ∧
  (∀ acts, Forall brings_str acts →
     ∃ s : string, last_clipboard (run acts initial_world).1 = SStr s ∧
                   (py_truthy (last_clipboard (run acts initial_world).1) = true →
                    s ≠ "")).
Proof.
  split; [done|]. split; [exact step_gated|].
  split; [exact run_stays_true|]. split; [|split; [|split]].
  - intros before a after Hchange.
    rewrite run_app, run_cons. apply run_stays_true.
    destruct (step_gated a (run before initial_world).1) as [? | [? _]]; done.
  - intros before after Hfalse. rewrite run_app in Hfalse.
    destruct (run_empty_or_true before) as [?|Htrue]; [done|].
    apply (run_stays_true after) in Htrue. congruence.
  - exact step_holds_str.
  - intros acts Hacts.
    destruct (run_holds_str acts initial_world Hacts) as [s Hs];
      [by exists ""|].
    exists s. split; [done|]. rewrite Hs. cbn.
    by intros ?%bool_decide_eq_true.
Qed.

Lemma last_clipboard_gate_witness :
  py_truthy (last_clipboard (set_last_clipboard "hello" two_clients)) = true ∧
  py_truthy
    (last_clipboard
       (run [Turn 1 "d1" (Text (NotJson "")); Tick;
             Turn 2 "d2" (tagged_update "")]
          (set_last_clipboard "hello" two_clients)).1) = true.
Proof.
  destruct last_clipboard_gate as (_ & _ & Hstays & _).
  split; [reflexivity|]. apply Hstays. reflexivity.
Defined.

(** C9 as stated fails: the text of a message is whatever JSON value the
    peer sends.  d1 sends [{"type": "clipboard_update", "text": 123}]: the
    number passes the gate, the backend accepts it, and [last_clipboard] is
    the integer 123, which is no string. *)
Lemma last_clipboard_takes_a_number :
  last_clipboard
    (final (session_turn 1 "d1" (tagged_update (PInt 123)) two_clients)) =
    SInt 123 ∧
  clipboard
    (final (session_turn 1 "d1" (tagged_update (PInt 123)) two_clients)) =
    "123" ∧
  ¬ holds_str (final (session_turn 1 "d1" (tagged_update (PInt 123)) two_clients)).
Proof.
  split; [reflexivity|]. split; [reflexivity|].
  intros [s Hs]. vm_compute in Hs. discriminate Hs.
Qed.

(** ** What a turn leaves of the world *)

Lemma sockets_decay_same w w' : sockets w' = sockets w → sockets_decay w w'.
Proof. intros Hs ws. left. by rewrite Hs. Qed.

Lemma send_failed_decay w w' ws :
  sockets_decay w w' → send_ok ws w' = false →
  sockets_decay w (send_failed ws w').
Proof.
  intros Hd Hok. unfold send_failed.
  destruct (is_connected ws w') eqn:Hc; [|done]. by apply decay_disconnect.
Qed.

Lemma send_json_frame ws msg w :
  connected_clients (final (send_json ws msg w)) = connected_clients w ∧
  sockets_decay w (final (send_json ws msg w)) ∧
  paste_raises (final (send_json ws msg w)) = paste_raises w.
Proof.
  rewrite send_json_spec. destruct (send_ok ws w) eqn:Hok; cbn.
  - split; [done|]. split; [apply sockets_decay_refl|done].
  - unfold send_failed, final. cbn.
    destruct (is_connected ws w) eqn:Hc; cbn;
      (split; [done|]; split; [|done]).
    + by apply decay_disconnect; [apply sockets_decay_refl|..].
    + apply sockets_decay_refl.
Qed.

Lemma sockets_decay_trans_frame w w1 w2 :
  sockets w1 = sockets w → sockets_decay w1 w2 → sockets_decay w w2.
Proof. intros Hs Hd ws. specialize (Hd ws). by rewrite Hs in Hd. Qed.

(** The body of the receive loop leaves the dictionary as it is and changes
    the sockets by failed sends only. *)
Lemma handle_text_frame websocket device_id p w :
  connected_clients (final (handle_text websocket device_id p w)) =
    connected_clients w ∧
  sockets_decay w (final (handle_text websocket device_id p w)) ∧
  paste_raises (final (handle_text websocket device_id p w)) = paste_raises w.
Proof.
  assert (Hfallback : ∀ content r,
    connected_clients (final (fallback_update content r w)) = connected_clients w ∧
    sockets_decay w (final (fallback_update content r w)) ∧
    paste_raises (final (fallback_update content r w)) = paste_raises w).
  { intros content r. rewrite fallback_update_spec.
    destruct (is_new content w); [destruct (accepted content w)|];
      (split; [done|]; split; [by apply sockets_decay_same|done]). }
  destruct p as [data|type text|]; cbn.
  - apply Hfallback.
  - destruct (bool_decide (type = Some "pairing_request")).
    { monad.
      pose proof (send_json_frame websocket pairing_response w) as Hf.
      by destruct (send_json websocket pairing_response w) as [[r w1] t1]. }
    destruct text as [content|];
      [|split; [done|]; split; [by apply sockets_decay_same|done]].
    destruct (bool_decide (type = Some "clipboard_update")); [|apply Hfallback].
    monad.
    assert (connected_clients (final (session_apply_and_broadcast device_id content w)) =
              connected_clients w ∧
            sockets_decay w (final (session_apply_and_broadcast device_id content w)) ∧
            paste_raises (final (session_apply_and_broadcast device_id content w)) =
              paste_raises w) as Ha.
    { destruct (is_new content w) eqn:Hnew;
        [|rewrite session_apply_and_broadcast_spec, Hnew;
          split; [done|]; split; [by apply sockets_decay_same|done]].
      destruct (accepted content w) as [s|] eqn:Hacc;
        [|rewrite session_apply_and_broadcast_spec, Hnew, Hacc;
          split; [done|]; split; [by apply sockets_decay_same|done]].
      destruct (session_apply_and_broadcast_adopts device_id content w s Hnew Hacc)
        as [(Hc & _ & _ & _ & Hp) Hd].
      by rewrite Hc, Hp. }
    destruct (session_apply_and_broadcast device_id content w)
      as [[[[]|e] w1] t1]; cbn in *; [|done].
    destruct Ha as (Hc & Hd & Hp).
    rewrite send_json_spec. destruct (send_ok websocket w1) eqn:Hok; cbn; [done|].
    unfold send_failed.
    destruct (is_connected websocket w1) eqn:Hconn; cbn;
      (split; [done|]; split; [|done]); [|done].
    by apply decay_disconnect.
  - split; [done|]. split; [by apply sockets_decay_same|done].
Qed.

(** ** Reachable dictionaries *)

Lemma step_dict_wf a w :
  dict_wf (connected_clients w) → dict_wf (connected_clients (step a w).1).
Proof.
  intros Hwf. destruct a as [ws id|ws id r| |e]; cbn.
  - destruct (session_open_frame ws id w) as (_ & _ & ->).
    destruct (outcome (session_open ws id w)); [by apply dict_set_wf|done].
  - rewrite session_turn_spec. destruct r as [p|e]; [|by apply dict_pop_wf].
    pose proof (handle_text_frame ws id p w) as [Hsame _].
    destruct (handle_text ws id p w) as [[[[]|e] w1] t1]; cbn in *;
      rewrite Hsame; [done|by apply dict_pop_wf].
  - rewrite monitor_turn_spec.
    assert (Hb : dict_wf (connected_clients (final (monitor_body w)))).
    { rewrite monitor_body_spec. destruct (paste_raises w); [done|].
      rewrite monitor_apply_and_broadcast_spec.
      destruct (is_new (clipboard w) w); [|done].
      destruct (monitor_broadcast_inv (clipboard w)
                  (set_last_clipboard (clipboard w) w))
        as [(_ & _ & _ & _ & _ & _ & _ & Hwf' & _) _].
      by apply Hwf'. }
    by destruct (monitor_body w) as [[[[]|e] w1] t1].
  - by destruct e.
Qed.

(** Every dictionary the server reaches from its start has unique keys. *)
Lemma run_dict_wf acts : dict_wf (connected_clients (run acts initial_world).1).
Proof.
  assert (H : ∀ w, dict_wf (connected_clients w) →
                   dict_wf (connected_clients (run acts w).1)).
  { induction acts as [|a acts IH]; intros w Hwf; [done|].
    rewrite run_cons. by apply IH, step_dict_wf. }
  apply H. unfold dict_wf. simpl. constructor.
Qed.

(** ** A send that fails (C1) *)

(** C1 at a failing input.  d1, d2 and d3 are registered and connected, and
    [send_json] raises on the socket of d2.
    In a session (d1 sends the new text [hello]) the failure is caught and
    logged and d3 is still served, but d2 stays registered: the dictionary
    is the same afterwards.
    In the poller (the clipboard has become [hello]) the failure is logged
    and d2 is removed, but the removal during the iteration makes the
    iterator raise [RuntimeError]: d3 is sent nothing and the error leaves
    the fan-out, to be logged by the handler of the loop. *)
Theorem send_failure_not_isolated :
  send_ok 2 three_clients = false ∧
  session_turn 1 "d1" (tagged_update "hello") three_clients =
    (Return true,
     disconnect 2
       (set_last_clipboard "hello" (set_clipboard "hello" three_clients)),
     [Copy "hello" true;
      Log INFO (ReceivedClipboardUpdate "d1");
      SendJson 2 (clipboard_update "hello" "d1") false;
      Log ERROR (ErrorBroadcasting "d2" WebSocketDisconnect);
      SendJson 3 (clipboard_update "hello" "d1") true;
      SendJson 1 acknowledgment true]) ∧
  connected_clients
    (final (session_turn 1 "d1" (tagged_update "hello") three_clients)) =
    [("d1", 1); ("d2", 2); ("d3", 3)] ∧
  monitor_turn (set_clipboard "hello" three_clients) =
    (Return tt,
     set_connected_clients [("d1", 1); ("d3", 3)]
       (disconnect 2
          (set_last_clipboard "hello" (set_clipboard "hello" three_clients))),
     [SendJson 1 (clipboard_update "hello" "desktop") true;
      Log INFO (SentClipboardUpdate "d1");
      SendJson 2 (clipboard_update "hello" "desktop") false;
      Log ERROR (ErrorSending "d2" WebSocketDisconnect);
      Log ERROR (ClipboardMonitorError RuntimeError);
      Sleep 1]) ∧
  outcome (monitor_broadcast "hello"
             (set_last_clipboard "hello" (set_clipboard "hello" three_clients))) =
    Raise RuntimeError ∧
  is_connected 3 three_clients = true ∧
  no_send_to 3 (events (monitor_turn (set_clipboard "hello" three_clients))).
Proof.
  split; [reflexivity|]. split; [reflexivity|]. split; [reflexivity|].
  split; [reflexivity|]. split; [reflexivity|]. split; [reflexivity|].
  intros msg d Hin. vm_compute in Hin. not_in_list Hin.
Qed.

(** ** A connection that is replaced (C3) *)

(** C3 at a failing input.  A first connection (socket 1) registers as d1,
    then a second one (socket 2) registers as d1 too: socket 1 is closed and
    d1 maps to socket 2 alone.  Then the receive loop of the first
    connection sees the disconnection and runs its cleanup, which removes
    the entry of d1 whatever socket it holds: the second connection is
    still CONNECTED but no longer registered. *)
Theorem replaced_connection_is_unregistered :
  connected_clients
    (run [Open 1 "d1"; Open 2 "d1"] two_fresh_sockets).1 = [("d1", 2)] ∧
  application_state <$>
    sockets (run [Open 1 "d1"; Open 2 "d1"] two_fresh_sockets).1 !! 1 =
    Some DISCONNECTED ∧
  (run [Open 1 "d1"; Open 2 "d1"] two_fresh_sockets).2 =
    [Accept 1; Log INFO (DeviceConnected "d1");
     Log WARNING (AlreadyConnected "d1"); Close 1;
     Accept 2; Log INFO (DeviceConnected "d1")] ∧
  connected_clients
    (run [Open 1 "d1"; Open 2 "d1";
          Turn 1 "d1" (ReceiveRaises WebSocketDisconnect)]
       two_fresh_sockets).1 = [] ∧
  is_connected 2
    (run [Open 1 "d1"; Open 2 "d1";
          Turn 1 "d1" (ReceiveRaises WebSocketDisconnect)]
       two_fresh_sockets).1 = true.
Proof. repeat split; reflexivity. Qed.

(** * Further properties of the code *)

(** ** Messages that are no clipboard update *)

(** X1.  A pairing request is answered without any check and without any
    effect on the clipboard: whatever else the JSON object holds, a text
    included, the turn logs the request and sends the pairing response with
    [success] true to the sender; when the send is delivered the world is
    unchanged and the session goes on.  When the send raises, the session
    ends and the sender is unregistered: on a socket that was CONNECTED the
    failure of the transport makes the socket DISCONNECTED and is logged as
    a disconnection (line 115); on a socket that was not CONNECTED the
    [RuntimeError] of the send is logged as an error (line 117). *)
Theorem pairing_request_is_stateless (w : world) (websocket : nat)
    (device_id : string) (text : option pyvalue) :
  session_turn websocket device_id
    (Text (JsonObject (Some "pairing_request") text)) w =
    if send_ok websocket w then
      (Return true, w,
       [Log INFO (PairingRequestFrom device_id);
        SendJson websocket pairing_response true])
    else if is_connected websocket w then
      (Return false,
       set_connected_clients (dict_pop device_id (connected_clients w))
         (disconnect websocket w),
       [Log INFO (PairingRequestFrom device_id);
        SendJson websocket pairing_response false;
        Log WARNING (DeviceDisconnected device_id WebSocketDisconnect)])
    else
      (Return false,
       set_connected_clients (dict_pop device_id (connected_clients w)) w,
       [Log INFO (PairingRequestFrom device_id);
        SendJson websocket pairing_response false;
        Log ERROR (ErrorWithDevice device_id RuntimeError)]).
Proof.
  rewrite session_turn_spec. unfold handle_text.
  rewrite bool_decide_eq_true_2 by done. monad.
  rewrite send_json_spec. unfold send_error, send_failed.
  destruct (send_ok websocket w); [done|].
  by destruct (is_connected websocket w).
Qed.

(** X2.  Payloads the handler has no branch for.  A JSON object that is no
    pairing request and has no text (a tagged update without text
    included) is ignored: nothing is sent, nothing changes, the session goes
    on.  A JSON value that is not an object ends the session: the
    [AttributeError] of [message.get] is logged and the sender is
    unregistered; nothing else changes. *)
Theorem payload_without_text (w : world) (websocket : nat)
    (device_id : string) (type : option string) :
  (type ≠ Some "pairing_request" →
   session_turn websocket device_id (Text (JsonObject type None)) w =
     (Return true, w, [])) ∧
  session_turn websocket device_id (Text JsonOther) w =
    (Return false,
     set_connected_clients (dict_pop device_id (connected_clients w)) w,
     [Log ERROR (ErrorWithDevice device_id AttributeError)]).
Proof.
  split.
  - intros Hne. rewrite session_turn_spec. unfold handle_text.
    by rewrite bool_decide_eq_false_2.
  - by rewrite session_turn_spec.
Qed.

Lemma payload_without_text_witness :
  Some "clipboard_update" ≠ Some "pairing_request" ∧
  session_turn 1 "d1" (Text (JsonObject (Some "clipboard_update") None))
    two_clients = (Return true, two_clients, []).
Proof.
  assert (Hne : Some "clipboard_update" ≠ Some "pairing_request")
    by discriminate.
  split; [exact Hne|].
  destruct (payload_without_text two_clients 1 "d1" (Some "clipboard_update"))
    as [Hignored _].
  exact (Hignored Hne).
Defined.

(** ** What a session does to the registry *)

(** X3.  A turn of a receive loop touches no entry of the registry but its
    own: whatever it receives, every other identifier maps to the same
    socket afterwards (a peer whose send failed is not unregistered by the
    session that noticed).  The own entry is removed exactly when the
    session ends; while the session goes on the dictionary is untouched.
    The turn closes and accepts no socket: the only change to the sockets
    is that one whose send failed in the turn, which was CONNECTED with a
    transport that raises, is DISCONNECTED afterwards. *)
Theorem session_turn_touches_own_entry_only (w : world) (websocket : nat)
    (device_id : string) (r : received) :
  sockets_decay w (final (session_turn websocket device_id r w)) ∧
  (∀ k, k ≠ device_id →
     dict_get k (connected_clients (final (session_turn websocket device_id r w))) =
       dict_get k (connected_clients w)) ∧
  (outcome (session_turn websocket device_id r w) = Return true →
     connected_clients (final (session_turn websocket device_id r w)) =
       connected_clients w) ∧
  (outcome (session_turn websocket device_id r w) = Return false →
     connected_clients (final (session_turn websocket device_id r w)) =
       dict_pop device_id (connected_clients w)) ∧
  (outcome (session_turn websocket device_id r w) = Return true ∨
   outcome (session_turn websocket device_id r w) = Return false).
Proof.
  rewrite session_turn_spec. destruct r as [p|e].
  - pose proof (handle_text_frame websocket device_id p w) as (Hc & Hs & _).
    destruct (handle_text websocket device_id p w) as [[[[]|e] w1] t1];
      cbn in *; rewrite Hc.
    + repeat split; try done. by left.
    + split; [exact Hs|]. split; [intros k Hk; by apply dict_get_pop_ne|].
      split; [done|]. split; [done|]. by right.
  - cbn. split; [by apply sockets_decay_same|].
    split; [intros k Hk; by apply dict_get_pop_ne|].
    split; [done|]. split; [done|]. by right.
Qed.

(** X4.  The cleanup of a session removes by key.  When the receive raises,
    whatever the exception and whatever socket the identifier maps to at
    that time, the identifier is unregistered, nothing is sent, no socket is
    closed and the clipboard state stays; for a key that is absent this is
    no error and changes nothing, so a second cleanup leaves the world of
    the first. *)
Theorem session_cleanup_by_key (w : world) (websocket : nat)
    (device_id : string) (e : exn) :
  session_turn websocket device_id (ReceiveRaises e) w =
    (Return false,
     set_connected_clients (dict_pop device_id (connected_clients w)) w,
     [cleanup_event device_id e]) ∧
  dict_get device_id
    (connected_clients (final (session_turn websocket device_id (ReceiveRaises e) w))) =
    None ∧
  (dict_get device_id (connected_clients w) = None →
   final (session_turn websocket device_id (ReceiveRaises e) w) = w) ∧
  (∀ websocket' e',
     final (session_turn websocket' device_id (ReceiveRaises e')
              (final (session_turn websocket device_id (ReceiveRaises e) w))) =
     final (session_turn websocket device_id (ReceiveRaises e) w)).
Proof.
  rewrite !session_turn_spec. cbn. split; [done|].
  split; [apply dict_pop_gone|]. split.
  - intros Hnone. rewrite (dict_pop_absent _ _ Hnone). by destruct w.
  - intros websocket' e'. rewrite session_turn_spec. cbn.
    unfold set_connected_clients. cbn. by rewrite dict_pop_idem.
Qed.

Lemma session_cleanup_by_key_witness :
  dict_get "d9" (connected_clients two_clients) = None ∧
  final (session_turn 7 "d9" (ReceiveRaises WebSocketDisconnect) two_clients) =
    two_clients.
Proof.
  split; [reflexivity|].
  destruct (session_cleanup_by_key two_clients 7 "d9" WebSocketDisconnect)
    as (_ & _ & Habsent & _).
  apply Habsent. reflexivity.
Defined.

(** ** Opening a connection *)

(** X5.  A connection that is opened successfully is registered and
    disturbs no other device: its identifier maps to the new socket, every
    other identifier maps to what it mapped to, the dictionary grows by one
    entry when the identifier was free and keeps its size when it was taken,
    [last_clipboard] is untouched, and a socket that was registered under
    the identifier before is no longer CONNECTED. *)
Theorem session_open_registers (w : world) (websocket : nat)
    (device_id : string) :
  outcome (session_open websocket device_id w) = Return tt →
  dict_get device_id
    (connected_clients (final (session_open websocket device_id w))) =
    Some websocket ∧
  (∀ k, k ≠ device_id →
     dict_get k (connected_clients (final (session_open websocket device_id w))) =
       dict_get k (connected_clients w)) ∧
  length (connected_clients (final (session_open websocket device_id w))) =
    match dict_get device_id (connected_clients w) with
    | Some _ => length (connected_clients w)
    | None => S (length (connected_clients w))
    end ∧
  last_clipboard (final (session_open websocket device_id w)) =
    last_clipboard w ∧
  (∀ previous, dict_get device_id (connected_clients w) = Some previous →
     previous ≠ websocket →
     is_connected previous (final (session_open websocket device_id w)) = false).
Proof.
  intros Hout.
  destruct (session_open_frame websocket device_id w) as (Hl & _ & Hc).
  rewrite Hout in Hc. rewrite Hc.
  split; [apply dict_set_get|]. split; [intros k Hk; by apply dict_get_set_ne|].
  split; [apply dict_set_length|]. split; [done|].
  intros previous Hget Hne. revert Hout.
  rewrite session_open_spec, Hget, close_spec.
  unfold is_connected.
  destruct (sockets w !! previous) as [s|] eqn:Hs; [|done].
  destruct (application_state s) eqn:Hstate; try done;
    (destruct (close_raises s) eqn:Hclose; [done|]);
    rewrite accept_spec;
    (destruct (sockets (disconnect previous w) !! websocket) as [s'|]; [|done]);
    (destruct (application_state s'); try done); intros _; cbn;
    (rewrite lookup_alter_ne by done); rewrite lookup_alter_eq, Hs; done.
Qed.

Lemma session_open_registers_witness :
  outcome (session_open 2 "d1" (final (session_open 1 "d1" two_fresh_sockets))) =
    Return tt ∧
  dict_get "d1"
    (connected_clients
       (final (session_open 2 "d1" (final (session_open 1 "d1" two_fresh_sockets))))) =
    Some 2.
Proof.
  split; [reflexivity|].
  apply (session_open_registers (final (session_open 1 "d1" two_fresh_sockets))
           2 "d1").
  reflexivity.
Defined.

(** X6.  The [close] of the previous connection is not protected: when it
    raises, the exception leaves the endpoint before [accept], so the new
    connection is neither accepted nor registered and the previous one
    stays registered.  When the previous socket is DISCONNECTED already
    (a send to it failed, or it was closed before), [close] refuses with
    [RuntimeError] and the world is unchanged.  When its transport raises,
    the previous socket is DISCONNECTED afterwards and the exception is
    [WebSocketDisconnect] for a socket that was CONNECTED, the [OSError] of
    the transport for one that was still CONNECTING. *)
Theorem session_open_close_failure (w : world) (websocket : nat)
    (device_id : string) (previous : nat) (s : WebSocket) :
  dict_get device_id (connected_clients w) = Some previous →
  sockets w !! previous = Some s →
  (application_state s = DISCONNECTED →
   session_open websocket device_id w =
     (Raise RuntimeError, w, [Log WARNING (AlreadyConnected device_id)])) ∧
  (application_state s = CONNECTED → close_raises s = true →
   session_open websocket device_id w =
     (Raise WebSocketDisconnect, disconnect previous w,
      [Log WARNING (AlreadyConnected device_id)])) ∧
  (application_state s = CONNECTING → close_raises s = true →
   session_open websocket device_id w =
     (Raise OSError, disconnect previous w,
      [Log WARNING (AlreadyConnected device_id)])).
Proof.
  intros Hget Hs. rewrite session_open_spec, Hget, close_spec, Hs.
  split_and!; intros Hst; rewrite Hst; [done|intros ->; done..].
Qed.

Lemma session_open_close_failure_witness :
  dict_get "d1" (connected_clients stuck_client) = Some 1 ∧
  dict_get "d1" (connected_clients stale_client) = Some 1 ∧
  session_open 2 "d1" stuck_client =
    (Raise WebSocketDisconnect, disconnect 1 stuck_client,
     [Log WARNING (AlreadyConnected "d1")]) ∧
  session_open 2 "d1" stale_client =
    (Raise RuntimeError, stale_client, [Log WARNING (AlreadyConnected "d1")]).
Proof.
  split; [reflexivity|]. split; [reflexivity|]. split.
  - apply (session_open_close_failure stuck_client 2 "d1" 1
             (mkWebSocket CONNECTED false true)); reflexivity.
  - apply (session_open_close_failure stale_client 2 "d1" 1 gone); reflexivity.
Defined.

(** ** The fan-out of a session *)

Lemma sends_of_app t1 t2 : sends_of (t1 ++ t2) = sends_of t1 ++ sends_of t2.
Proof.
  induction t1 as [|e t1 IH]; [done|]. destruct e; simpl; by rewrite ?IH.
Qed.

Lemma session_send_sends device_id content w k v :
  sends_of (session_send_events device_id content w k v) =
    if eligible device_id w (k, v)
    then [(v, clipboard_update content device_id, send_ok v w)]
    else [].
Proof.
  unfold session_send_events. destruct (eligible device_id w (k, v)); [|done].
  by destruct (send_ok v w).
Qed.

(** The sends of the loop over entries whose sockets are distinct and are
    in the state they have in [w]. *)
Lemma for_items_session_sends device_id content w items :
  NoDup items.*2 →
  ∀ w', length (connected_clients w') = length (connected_clients w) →
    (∀ k v, (k, v) ∈ items → sockets w' !! v = sockets w !! v) →
    sends_of (events (for_items (length (connected_clients w)) items
                        (session_send device_id content) w')) =
      map (λ kv, (kv.2, clipboard_update content device_id, send_ok kv.2 w))
          (List.filter (eligible device_id w) items).
Proof.
  induction items as [|[k v] items IH]; intros Hnd w' Hlen Hsock; cbn; monad.
  - by rewrite decide_True.
  - rewrite decide_True by done. rewrite session_send_spec.
    apply NoDup_cons in Hnd as [Hv Hnd].
    assert (Hsame : sockets w' !! v = sockets w !! v) by (apply (Hsock k); by left).
    assert (Hel : eligible device_id w' (k, v) = eligible device_id w (k, v)).
    { unfold eligible, is_connected. cbn. by rewrite Hsame. }
    assert (Hok : send_ok v w' = send_ok v w).
    { unfold send_ok. by rewrite Hsame. }
    specialize (IH Hnd (session_send_world device_id w' k v)).
    destruct (for_items (length (connected_clients w)) items
                (session_send device_id content)
                (session_send_world device_id w' k v)) as [[r w''] t''] eqn:E.
    cbn in *. rewrite sends_of_app, session_send_sends, Hel, Hok.
    rewrite IH.
    + by destruct (eligible device_id w (k, v)).
    + unfold session_send_world. by destruct (_ && _).
    + intros k' v' Hin. rewrite <-(Hsock k' v') by (by right).
      unfold session_send_world. destruct (_ && _); [|done]. cbn.
      apply lookup_alter_ne. intros ->. apply Hv.
      apply list_elem_of_fmap. by exists (k', v').
Qed.

(** X7.  The fan-out of a session calls [send_json] once for every
    registered connection that is CONNECTED and registered under another
    identifier than the origin, in the order of registration, and for no
    other; each call carries the update with the origin as its source.  A
    call that raises does not stop the ones after it.  This is for a
    dictionary that holds every socket once, which is what the endpoint
    builds (each connection has a socket of its own): a socket registered
    under two identifiers is DISCONNECTED after a send to it has failed and
    is skipped at its second entry. *)
Theorem session_broadcast_serves_each_once (w : world)
    (device_id : string) (content : pyvalue) :
  sockets_distinct (connected_clients w) →
  sends_of (events (session_broadcast device_id content w)) =
    map (λ kv, (kv.2, clipboard_update content device_id, send_ok kv.2 w))
        (List.filter (eligible device_id w) (connected_clients w)).
Proof.
  intros Hnd. unfold session_broadcast. rewrite for_connected_clients_unfold.
  by apply for_items_session_sends.
Qed.

Lemma session_broadcast_serves_each_once_witness :
  sockets_distinct (connected_clients three_clients) ∧
  sends_of (events (session_broadcast "d1" "hello" three_clients)) =
    [(2, clipboard_update "hello" "d1", false);
     (3, clipboard_update "hello" "d1", true)].
Proof.
  assert (Hnd : sockets_distinct (connected_clients three_clients)).
  { unfold sockets_distinct. apply (bool_decide_unpack _). vm_compute. exact I. }
  split; [exact Hnd|].
  rewrite (session_broadcast_serves_each_once three_clients "d1" "hello" Hnd).
  reflexivity.
Defined.

Lemma send_failed_same_but_sockets ws w : same_but_sockets w (send_failed ws w).
Proof. unfold send_failed. by destruct (is_connected ws w). Qed.

(** X8.  The acknowledgment comes last.  When a tagged update with a new
    value is accepted by the backend and the send of the acknowledgment to
    the sender raises, the update has been written to the backend, assigned
    to [last_clipboard] and fanned out all the same; the session ends, and
    the sender is unregistered.  The cleanup logs a disconnection when the
    sender's socket was CONNECTED (its transport raised, and the socket is
    DISCONNECTED afterwards), an error when it was not. *)
Theorem failed_acknowledgment_keeps_update (w : world) (websocket : nat)
    (device_id : string) (content : pyvalue) (s : scalar) :
  is_new content w = true →
  accepted content w = Some s →
  send_ok websocket w = false →
  session_turn websocket device_id (tagged_update content) w =
    (Return false,
     set_connected_clients (dict_pop device_id (connected_clients w))
       (send_failed websocket
          (final (session_broadcast device_id content
                    (set_last_clipboard s (set_clipboard (py_str s) w))))),
     (Copy content true :: Log INFO (ReceivedClipboardUpdate device_id) ::
      events (session_broadcast device_id content
                (set_last_clipboard s (set_clipboard (py_str s) w)))) ++
     [SendJson websocket acknowledgment false;
      cleanup_event device_id
        (send_error websocket
           (final (session_broadcast device_id content
                     (set_last_clipboard s (set_clipboard (py_str s) w)))))]) ∧
  clipboard (final (session_turn websocket device_id (tagged_update content) w)) =
    py_str s ∧
  last_clipboard (final (session_turn websocket device_id (tagged_update content) w)) =
    s.
Proof.
  intros Hnew Hacc Hok. unfold tagged_update.
  rewrite session_turn_spec, handle_text_tagged,
    session_apply_and_broadcast_spec, Hnew, Hacc.
  destruct (session_broadcast_inv device_id content
              (set_last_clipboard s (set_clipboard (py_str s) w)))
    as ((Hdecay & (Hc & Hl & Hb & _) & _) & _).
  rewrite (decay_send_ok _ _ websocket Hdecay).
  replace (send_ok websocket (set_last_clipboard s (set_clipboard (py_str s) w)))
    with (send_ok websocket w) by done.
  rewrite Hok. cbn.
  destruct (send_failed_same_but_sockets websocket
              (final (session_broadcast device_id content
                        (set_last_clipboard s (set_clipboard (py_str s) w)))))
    as (Hc' & Hl' & Hb' & _).
  rewrite Hc', Hc, Hl', Hl, Hb', Hb. cbn. by rewrite <-app_assoc.
Qed.

Lemma failed_acknowledgment_keeps_update_witness :
  is_new "hello" three_clients = true ∧
  accepted "hello" three_clients = Some (SStr "hello") ∧
  send_ok 2 three_clients = false ∧
  last_clipboard
    (final (session_turn 2 "d2" (tagged_update "hello") three_clients)) =
    SStr "hello".
Proof.
  split; [reflexivity|]. split; [reflexivity|]. split; [reflexivity|].
  destruct (failed_acknowledgment_keeps_update three_clients 2 "d2" "hello"
              (SStr "hello")) as (_ & _ & Hlast); [reflexivity..|].
  exact Hlast.
Defined.

(** ** The fan-out of the poller *)

(** X9.  The fan-out of the poller stops at the first send that raises.
    The connections registered before the failing one are served, the
    failing one is logged (the transport raised on a socket that was
    CONNECTED: a [WebSocketDisconnect], and the socket is DISCONNECTED
    afterwards) and removed from the dictionary, and that removal makes the
    iteration raise [RuntimeError]: the connections registered after it are
    sent nothing in this turn. *)
Theorem monitor_broadcast_stops_at_first_failure (w : world)
    (content : string) (pre post : dict) (k : string) (v : nat) :
  connected_clients w = pre ++ (k, v) :: post →
  (∀ k' v', (k', v') ∈ pre →
            is_connected v' w = true → send_ok v' w = true) →
  is_connected v w = true →
  send_ok v w = false →
  monitor_broadcast content w =
    (Raise RuntimeError,
     set_connected_clients (dict_pop k (connected_clients w)) (disconnect v w),
     flat_map (λ kv, monitor_send_events content w kv.1 kv.2) pre ++
     [SendJson v (clipboard_update content "desktop") false;
      Log ERROR (ErrorSending k WebSocketDisconnect)]).
Proof.
  intros Hd Hpre Hconn Hfail.
  unfold monitor_broadcast. rewrite for_connected_clients_unfold.
  rewrite Hd at 2.
  rewrite (for_items_app_pure _ (monitor_send_events content w)).
  2:{ intros k' v' Hin. rewrite monitor_send_spec. unfold monitor_send_events.
      destruct (is_connected v' w) eqn:Hc; [|done]. by rewrite (Hpre k' v'). }
  cbn [for_items]. monad. rewrite decide_True by done.
  rewrite monitor_send_spec, Hconn, Hfail.
  rewrite for_items_size_changed; [done|].
  cbn. assert ((k, v) ∈ connected_clients w) as Hin%dict_pop_length_lt.
  { rewrite Hd. apply elem_of_app. right. by left. }
  lia.
Qed.

Lemma monitor_broadcast_stops_at_first_failure_witness :
  connected_clients three_clients = [("d1", 1)] ++ ("d2", 2) :: [("d3", 3)] ∧
  send_ok 2 three_clients = false ∧
  sends_of (events (monitor_broadcast "hello" three_clients)) =
    [(1, clipboard_update "hello" "desktop", true);
     (2, clipboard_update "hello" "desktop", false)] ∧
  is_connected 2 (final (monitor_broadcast "hello" three_clients)) = false.
Proof.
  split; [reflexivity|]. split; [reflexivity|].
  rewrite (monitor_broadcast_stops_at_first_failure three_clients "hello"
             [("d1", 1)] [("d3", 3)] "d2" 2); [split; reflexivity|reflexivity| | |].
  - intros k' v' Hin _. apply list_elem_of_singleton in Hin as [= -> ->].
    reflexivity.
  - reflexivity.
  - reflexivity.
Defined.

Lemma monitor_broadcast_evicts_at_most_one content w :
  (connected_clients (final (monitor_broadcast content w)) = connected_clients w ∧
   sockets (final (monitor_broadcast content w)) = sockets w) ∨
  ∃ k v, (k, v) ∈ connected_clients w ∧
         is_connected v w = true ∧ send_ok v w = false ∧
         connected_clients (final (monitor_broadcast content w)) =
           dict_pop k (connected_clients w) ∧
         sockets (final (monitor_broadcast content w)) =
           sockets (disconnect v w).
Proof.
  unfold monitor_broadcast. rewrite for_connected_clients_unfold.
  set (I := λ (w' : world) (t : list event),
         (connected_clients w' = connected_clients w ∧ sockets w' = sockets w) ∨
         ∃ k v, (k, v) ∈ connected_clients w ∧
                is_connected v w = true ∧ send_ok v w = false ∧
                connected_clients w' = dict_pop k (connected_clients w) ∧
                sockets w' = sockets (disconnect v w)).
  refine (proj1 (for_items_rule I (monitor_send content)
                   (length (connected_clients w)) (connected_clients w)
                   _ w [] _)); [|by left].
  intros k v w' t Hin Hd Hsize.
  assert (connected_clients w' = connected_clients w ∧ sockets w' = sockets w)
    as [Hsame Hs].
  { destruct Hd as [?|(k0 & v0 & Hin0 & _ & _ & Hpop & _)]; [done|].
    apply dict_pop_length_lt in Hin0. rewrite Hpop in Hsize. lia. }
  assert (Hc : is_connected v w' = is_connected v w)
    by (unfold is_connected; by rewrite Hs).
  assert (Hok : send_ok v w' = send_ok v w)
    by (unfold send_ok; by rewrite Hs).
  rewrite monitor_send_spec, Hc, Hok.
  destruct (is_connected v w) eqn:Hconn;
    [|eexists _, _; split; [done|]; by left].
  destruct (send_ok v w) eqn:Hfail; eexists _, _; (split; [done|]);
    [by left|].
  right. exists k, v. cbn. by rewrite Hsame, Hs.
Qed.

Lemma monitor_turn_final w : final (monitor_turn w) = final (monitor_body w).
Proof.
  rewrite monitor_turn_spec. by destruct (monitor_body w) as [[[[]|e] w1] t1].
Qed.

(** X10.  A turn of the poller unregisters at most one connection, one
    that is CONNECTED and whose send raised.  It closes and accepts no
    socket: when it unregisters nothing the store of sockets is the same
    afterwards, and when it unregisters a connection the only change is
    that the socket of that connection is DISCONNECTED.  The clipboard,
    which the poller never writes, stays. *)
Theorem monitor_turn_evicts_at_most_one (w : world) :
  clipboard (final (monitor_turn w)) = clipboard w ∧
  ((connected_clients (final (monitor_turn w)) = connected_clients w ∧
    sockets (final (monitor_turn w)) = sockets w) ∨
   ∃ k v, (k, v) ∈ connected_clients w ∧
          is_connected v w = true ∧ send_ok v w = false ∧
          connected_clients (final (monitor_turn w)) =
            dict_pop k (connected_clients w) ∧
          sockets (final (monitor_turn w)) = sockets (disconnect v w)).
Proof.
  rewrite monitor_turn_final, monitor_body_spec.
  destruct (paste_raises w); [split; [done|]; by left|].
  rewrite monitor_apply_and_broadcast_spec.
  destruct (is_new (clipboard w) w); [|split; [done|]; by left].
  destruct (monitor_broadcast_inv (clipboard w)
              (set_last_clipboard (clipboard w) w))
    as [(_ & _ & Hc & _) _].
  split; [done|].
  apply (monitor_broadcast_evicts_at_most_one (clipboard w)
           (set_last_clipboard (clipboard w) w)).
Qed.

(** ** The poller and the sessions together *)

Lemma monitor_turn_quiet w :
  paste_raises w = false → is_new (clipboard w) w = false →
  monitor_turn w = (Return tt, w, [Sleep 1]).
Proof.
  intros Hp Hnew.
  by rewrite monitor_turn_spec, monitor_body_spec, Hp,
    monitor_apply_and_broadcast_spec, Hnew.
Qed.

(** X11.  The poller broadcasts a clipboard content once.  After a turn
    whose read of the backend did not raise, [last_clipboard] holds the
    clipboard content whatever happened to the fan-out, so the next turn
    (the clipboard being the same) only sleeps: a connection that the first
    turn did not serve, because a send before it raised, is not served by
    the following turns either. *)
Theorem monitor_turn_does_not_retry (w : world) :
  paste_raises w = false →
  monitor_turn (final (monitor_turn w)) =
    (Return tt, final (monitor_turn w), [Sleep 1]).
Proof.
  intros Hp. rewrite (monitor_turn_final w), monitor_body_spec, Hp.
  pose proof (monitor_apply_last_clipboard (clipboard w) w) as Hlast.
  rewrite monitor_apply_and_broadcast_spec in *.
  destruct (is_new (clipboard w) w) eqn:Hnew; [|by apply monitor_turn_quiet].
  destruct (monitor_broadcast_inv (clipboard w)
              (set_last_clipboard (clipboard w) w))
    as [(_ & _ & Hc & _ & Hpr & _) _].
  apply monitor_turn_quiet; [by rewrite Hpr|].
  rewrite Hc. by apply (is_new_after (SStr (clipboard w))).
Qed.

Lemma monitor_turn_does_not_retry_witness :
  paste_raises three_clients_hello = false ∧
  is_connected 3 three_clients_hello = true ∧
  no_send_to 3 (events (monitor_turn three_clients_hello)) ∧
  events (monitor_turn (final (monitor_turn three_clients_hello))) = [Sleep 1].
Proof.
  split; [reflexivity|]. split; [reflexivity|]. split.
  - intros msg d Hin. vm_compute in Hin. not_in_list Hin.
  - rewrite (monitor_turn_does_not_retry three_clients_hello); reflexivity.
Defined.

Lemma session_turn_adopts websocket device_id p content w s :
  update_text p = Some content →
  is_new content w = true → accepted content w = Some s →
  last_clipboard (final (session_turn websocket device_id (Text p) w)) = s ∧
  clipboard (final (session_turn websocket device_id (Text p) w)) = py_str s ∧
  paste_raises (final (session_turn websocket device_id (Text p) w)) =
    paste_raises w.
Proof.
  intros Hp Hnew Hacc. rewrite session_turn_spec.
  assert (last_clipboard (final (handle_text websocket device_id p w)) = s ∧
          clipboard (final (handle_text websocket device_id p w)) = py_str s ∧
          paste_raises (final (handle_text websocket device_id p w)) =
            paste_raises w) as Hh.
  { assert (Hfallback : ∀ r,
      last_clipboard (final (fallback_update content r w)) = s ∧
      clipboard (final (fallback_update content r w)) = py_str s ∧
      paste_raises (final (fallback_update content r w)) = paste_raises w).
    { intros r. by rewrite fallback_update_spec, Hnew, Hacc. }
    destruct p as [data|type text|]; cbn in Hp; [| |done].
    - injection Hp as <-. apply Hfallback.
    - destruct (bool_decide (type = Some "pairing_request")) eqn:Hpair; [done|].
      subst text.
      destruct (bool_decide (type = Some "clipboard_update")) eqn:Htag.
      + apply bool_decide_eq_true in Htag as ->.
        rewrite handle_text_tagged, session_apply_and_broadcast_spec, Hnew, Hacc.
        destruct (session_broadcast_inv device_id content
                    (set_last_clipboard s (set_clipboard (py_str s) w)))
          as ((_ & (_ & Hl & Hb & _ & Hpr) & _) & _).
        destruct (send_failed_same_but_sockets websocket
                    (final (session_broadcast device_id content
                              (set_last_clipboard s (set_clipboard (py_str s) w)))))
          as (_ & Hl' & Hb' & _ & Hpr').
        destruct (send_ok websocket _); cbn; [done|].
        by rewrite Hl', Hl, Hb', Hb, Hpr', Hpr.
      + unfold handle_text. rewrite Hpair, Htag. apply Hfallback. }
  by destruct (handle_text websocket device_id p w) as [[[[]|e] w1] t1].
Qed.

(** X12.  A remote update that is a string does not come back through the
    poller.  When a session accepts a new text that is a string (tagged
    update or fallback) and the backend write succeeds, the text is both on
    the clipboard and in [last_clipboard], whether the session goes on or
    ends on a failed acknowledgment; the next turn of the poller then reads
    an unchanged value and only sleeps (the backend returning what was
    written). *)
Theorem remote_update_is_not_echoed (w : world) (websocket : nat)
    (device_id : string) (p : payload) (content : string) :
  update_text p = Some (JString content) →
  is_new content w = true →
  copy_raises w = false →
  paste_raises w = false →
  monitor_turn (final (session_turn websocket device_id (Text p) w)) =
    (Return tt, final (session_turn websocket device_id (Text p) w), [Sleep 1]).
Proof.
  intros Hp Hnew Hcopy Hpaste.
  destruct (session_turn_adopts websocket device_id p content w (SStr content)
              Hp Hnew) as (Hl & Hc & Hpr); [by cbn; rewrite Hcopy|].
  apply monitor_turn_quiet; [by rewrite Hpr|].
  rewrite Hc. cbn [py_str]. by apply (is_new_after (SStr content)).
Qed.

Lemma remote_update_is_not_echoed_witness :
  is_new "hello" two_clients = true ∧
  events (monitor_turn (final (session_turn 1 "d1" (tagged_update "hello")
                                 two_clients))) = [Sleep 1].
Proof.
  split; [reflexivity|]. unfold tagged_update.
  by rewrite (remote_update_is_not_echoed two_clients 1 "d1"
                (JsonObject (Some "clipboard_update") (Some (JString "hello")))
                "hello" eq_refl eq_refl eq_refl eq_refl).
Defined.

Lemma pretty_N_go_nonempty x s : s ≠ "" → pretty_N_go x s ≠ "".
Proof.
  revert s. induction (N.lt_wf_0 x) as [x _ IH]; intros s Hs.
  assert (x = 0 ∨ 0 < x)%N as [->|Hpos] by lia.
  - by rewrite pretty_N_go_0.
  - rewrite pretty_N_go_step by done. apply IH; [by apply N.div_lt|done].
Qed.

Lemma pretty_Z_nonempty (z : Z) : pretty z ≠ "".
Proof.
  destruct z as [|p|p]; [done| |done].
  unfold pretty, pretty_Z, pretty, pretty_positive, pretty, pretty_N.
  rewrite decide_False by done. rewrite pretty_N_go_step by lia.
  by apply pretty_N_go_nonempty.
Qed.

(** X14.  A remote update that is a number comes back through the poller.
    [pyperclip.copy] takes an [int] and writes its [str], and
    [last_clipboard] takes the [int] itself; the next turn of the poller
    reads the string, which [!=] tells from every number, so it assigns
    the string to [last_clipboard] and sends it, with source "desktop", to
    every registered connection that is CONNECTED, the one that submitted
    the number included (here with sends that are all delivered). *)
Theorem numeric_update_is_echoed (w : world) (websocket : nat)
    (device_id : string) (z : Z) :
  is_new (PInt z) w = true →
  copy_raises w = false →
  paste_raises w = false →
  send_ok websocket w = true →
  (∀ k v, (k, v) ∈ connected_clients w →
          is_connected v w = true → send_ok v w = true) →
  final (session_turn websocket device_id (tagged_update (PInt z)) w) =
    set_last_clipboard (SInt z) (set_clipboard (pretty z) w) ∧
  monitor_turn (set_last_clipboard (SInt z) (set_clipboard (pretty z) w)) =
    (Return tt,
     set_last_clipboard (SStr (pretty z)) (set_clipboard (pretty z) w),
     flat_map (λ kv, monitor_send_events (pretty z) w kv.1 kv.2)
              (connected_clients w) ++ [Sleep 1]).
Proof.
  intros Hnew Hcopy Hpaste Hok Hall. split.
  - unfold tagged_update.
    rewrite session_turn_spec, handle_text_tagged,
      session_apply_and_broadcast_spec, Hnew.
    cbn [accepted]. rewrite Hcopy.
    assert (Hb : session_broadcast device_id (PInt z)
                   (set_last_clipboard (SInt z) (set_clipboard (pretty z) w)) =
                 (Return tt,
                  set_last_clipboard (SInt z) (set_clipboard (pretty z) w),
                  flat_map (λ kv, session_send_events device_id (PInt z) w kv.1 kv.2)
                           (connected_clients w))).
    { unfold session_broadcast. rewrite for_connected_clients_unfold.
      apply (for_items_pure (session_send device_id (PInt z))
               (session_send_events device_id (PInt z) w)).
      intros k v Hin. rewrite session_send_spec.
      unfold session_send_world, session_send_events, eligible. cbn [fst snd].
      change (is_connected v (set_last_clipboard (SInt z) (set_clipboard (pretty z) w)))
        with (is_connected v w).
      change (send_ok v (set_last_clipboard (SInt z) (set_clipboard (pretty z) w)))
        with (send_ok v w).
      destruct (bool_decide (k ≠ device_id)); [|done].
      destruct (is_connected v w) eqn:Hc; [|done].
      by rewrite (Hall k v Hin Hc). }
    cbn [py_str]. rewrite Hb. cbn [final outcome events fst snd].
    change (send_ok websocket (set_last_clipboard (SInt z) (set_clipboard (pretty z) w)))
      with (send_ok websocket w).
    by rewrite Hok.
  - rewrite monitor_turn_spec, monitor_body_spec. cbn. rewrite Hpaste.
    rewrite monitor_apply_and_broadcast_spec.
    assert (Hn : is_new (JString (pretty z))
                   (set_last_clipboard (SInt z) (set_clipboard (pretty z) w)) = true).
    { apply is_new_true. split; cbn; [|done].
      apply bool_decide_eq_true. apply pretty_Z_nonempty. }
    cbn in Hn |- *. rewrite Hn.
    rewrite (monitor_broadcast_all_ok (pretty z)
               (set_last_clipboard (pretty z)
                  (set_last_clipboard (SInt z) (set_clipboard (pretty z) w))))
      by exact Hall.
    done.
Qed.

Lemma numeric_update_is_echoed_witness :
  is_new (PInt 123) two_clients = true ∧
  sends_of (events (monitor_turn
                      (final (session_turn 1 "d1" (tagged_update (PInt 123))
                                two_clients)))) =
    [(1, clipboard_update (JString "123") "desktop", true);
     (2, clipboard_update (JString "123") "desktop", true)].
Proof.
  assert (Hall : ∀ k v, (k, v) ∈ connected_clients two_clients →
                        is_connected v two_clients = true →
                        send_ok v two_clients = true).
  { intros k v Hin _.
    apply elem_of_cons in Hin as [[= -> ->]|Hin]; [reflexivity|].
    apply list_elem_of_singleton in Hin as [= -> ->]. reflexivity. }
  split; [reflexivity|].
  destruct (numeric_update_is_echoed two_clients 1 "d1" 123
              eq_refl eq_refl eq_refl eq_refl Hall) as [-> ->].
  reflexivity.
Defined.

(** ** The pairing code *)

Lemma pairing_alphabet_lookup n :
  (n < 36)%nat →
  ∃ c, pairing_alphabet !! n = Some c ∧ is_code_char c = true.
Proof.
  intros Hn.
  do 36 (destruct n as [|n]; [eexists; split; reflexivity|]). lia.
Qed.

(** X13.  The pairing code is six characters, each an upper-case letter or
    a digit: whatever indices the random source draws within the alphabet,
    [generate_pairing_code] gives a code, of length 6, over [A-Z0-9]. *)
Theorem pairing_code_format (rnd : nat → nat) :
  (∀ i, (i < 6)%nat → (rnd i < 36)%nat) →
  ∃ code, generate_pairing_code rnd = Some code ∧
          String.length code = 6%nat ∧
          Forall (λ c, is_code_char c = true) (String.list_ascii_of_string code).
Proof.
  intros Hrnd. unfold generate_pairing_code, choices. cbn [seq mapM].
  destruct (pairing_alphabet_lookup (rnd 0%nat)) as (c0 & -> & H0); [apply Hrnd; lia|].
  destruct (pairing_alphabet_lookup (rnd 1%nat)) as (c1 & -> & H1); [apply Hrnd; lia|].
  destruct (pairing_alphabet_lookup (rnd 2%nat)) as (c2 & -> & H2); [apply Hrnd; lia|].
  destruct (pairing_alphabet_lookup (rnd 3%nat)) as (c3 & -> & H3); [apply Hrnd; lia|].
  destruct (pairing_alphabet_lookup (rnd 4%nat)) as (c4 & -> & H4); [apply Hrnd; lia|].
  destruct (pairing_alphabet_lookup (rnd 5%nat)) as (c5 & -> & H5); [apply Hrnd; lia|].
  eexists. split; [reflexivity|]. split; [reflexivity|].
  cbn. repeat constructor; assumption.
Qed.

Lemma pairing_code_format_witness :
  (∀ i, (i < 6)%nat → (i * 7 < 36)%nat) ∧
  ∃ code, generate_pairing_code (λ i, i * 7)%nat = Some code ∧
          String.length code = 6%nat ∧
          Forall (λ c, is_code_char c = true) (String.list_ascii_of_string code).
Proof.
  split; [intros; lia|].
  apply (pairing_code_format (λ i, i * 7)%nat). intros; lia.
Defined.
